(** * Configuration resolver of the osu!lv Discord bot ([src/config.py])

    The module [config.py] is a script that runs once at import time: it
    reads the process environment, optionally one JSON "mappings" file,
    and either binds a set of module-level names or raises.  This file is
    a shallow embedding of that script and of the parts of the Python
    runtime it calls, followed by the properties of the resolver.

    Conventions of the embedding.
    - Python [str] is [string].  Characters are 8-bit; the behaviour of
      [int()] and [repr()] is modelled for ASCII text (Unicode digits and
      Unicode spaces are outside the model).
    - A Python [dict] is an association list in insertion order.
    - The environment is [os.environ] as it stands after
      [load_dotenv(override=True)] has run.
    - Effects ([logger.info], file-system probes) are recorded in a trace;
      an exception ends the run and keeps the trace produced so far.
    - [json.loads] is a parameter of the resolver; [RefJSON.loads] further
      down is a reader for JSON text that instantiates it. *)

From Stdlib Require Import ZArith Ascii String List Lia.
From stdpp Require Import base option list strings gmap.
From Corelib Require Import SpecFloat.

Local Open Scope Z_scope.
Local Set Warnings "-register-all".

(** ** Python values produced by [json] and [os.getenv] *)

Inductive pyval : Type :=
| PNone
| PBool (b : bool)
| PInt (z : Z)
| PFloat (f : spec_float)
| PStr (s : string)
| PList (l : list pyval)
| PDict (d : list (string * pyval)).

(** [type(v).__name__] *)
Definition type_name (v : pyval) : string :=
  match v with
  | PNone => "NoneType"
  | PBool _ => "bool"
  | PInt _ => "int"
  | PFloat _ => "float"
  | PStr _ => "str"
  | PList _ => "list"
  | PDict _ => "dict"
  end.

(** [bool(v)]: the truth value tested by [if v:] and [if not v:]. *)
Definition truthy (v : pyval) : bool :=
  match v with
  | PNone => false
  | PBool b => b
  | PInt z => negb (z =? 0)
  | PFloat (S754_zero _) => false
  | PFloat _ => true
  | PStr s => negb (String.eqb s "")
  | PList l => match l with [] => false | _ => true end
  | PDict d => match d with [] => false | _ => true end
  end.

(** ** Exceptions *)

Inductive exn_class : Type :=
| ValueError | JSONDecodeError | TypeError | AttributeError
| OverflowError | OSError | RecursionError.

(** [issubclass(c, ValueError)] *)
Definition is_ValueError (c : exn_class) : bool :=
  match c with ValueError | JSONDecodeError => true | _ => false end.

(** An exception object: its class and [str(e)]. *)
Record exn : Type := Exn { exn_cls : exn_class; exn_str : string }.

(** ** Dictionaries in insertion order *)

Section Dict.
Context {K V : Type} `{EqDecision K}.

(** [d.get(k)] as an option *)
Fixpoint dict_get (k : K) (d : list (K * V)) : option V :=
  match d with
  | [] => None
  | (k', v) :: d' => if decide (k = k') then Some v else dict_get k d'
  end.

(** [d[k] = v]: overwrite in place when the key exists, else append. *)
Fixpoint dict_set (k : K) (v : V) (d : list (K * V)) : list (K * V) :=
  match d with
  | [] => [(k, v)]
  | (k', v') :: d' =>
      if decide (k = k') then (k, v) :: d' else (k', v') :: dict_set k v d'
  end.

(** [dict(pairs)]: insert the pairs one after the other. *)
Definition dict_of_pairs (l : list (K * V)) : list (K * V) :=
  fold_left (fun d kv => dict_set kv.1 kv.2 d) l [].

(** [d.keys()] *)
Definition dict_keys (d : list (K * V)) : list K := fst <$> d.
End Dict.

(** ** [int()] *)

(** [Py_ISSPACE] on ASCII: tab, LF, VT, FF, CR and space. *)
Definition py_isspace (c : ascii) : bool :=
  let n := N_of_ascii c in
  ((9 <=? n)%N && (n <=? 13)%N) || (n =? 32)%N.

Definition digit_value (c : ascii) : option Z :=
  let n := N_of_ascii c in
  if ((48 <=? n)%N && (n <=? 57)%N) then Some (Z.of_N n - 48) else None.

Fixpoint skip_spaces (s : string) : string :=
  match s with
  | String c s' => if py_isspace c then skip_spaces s' else s
  | EmptyString => s
  end.

(** The digit loop of [PyLong_FromString] for base 10: digits, with single
    underscores allowed between two digits.  [acc] is the value read so
    far; the result is the value and the unread rest. *)
Fixpoint scan_digits (acc : Z) (s : string) : option (Z * string) :=
  match s with
  | String c s' =>
      match digit_value c with
      | Some d => scan_digits (10 * acc + d) s'
      | None =>
          if Ascii.eqb c "_" then
            match s' with
            | String c' _ =>
                match digit_value c' with
                | Some _ => scan_digits acc s'
                | None => None
                end
            | EmptyString => None
            end
          else Some (acc, s)
      end
  | EmptyString => Some (acc, s)
  end.

(** [int(s)] for a string: blanks, an optional sign, at least one digit,
    blanks.  [None] stands for the [ValueError] that [int] raises.  The cap
    that recent interpreters put on the number of digits
    ([sys.set_int_max_str_digits]) is a setting of the runtime and is not
    part of the model. *)
Definition int_of_string (s : string) : option Z :=
  let s1 := skip_spaces s in
  let '(neg, s2) :=
    match s1 with
    | String "+" r => (false, r)
    | String "-" r => (true, r)
    | _ => (false, s1)
    end in
  match s2 with
  | String c _ =>
      match digit_value c with
      | Some _ =>
          match scan_digits 0 s2 with
          | Some (n, rest) =>
              match skip_spaces rest with
              | EmptyString => Some (if neg then - n else n)
              | _ => None
              end
          | None => None
          end
      | None => None
      end
  | EmptyString => None
  end.


(** [repr(s)] for a string: single quotes unless the text has a single
    quote and no double quote; backslash escapes for the quote, the
    backslash, tab, LF, CR, and hexadecimal escapes for the other control
    characters. *)
Definition dquote : ascii := ascii_of_nat 34.
Definition squote : ascii := ascii_of_nat 39.
Definition backslash : ascii := ascii_of_nat 92.

Fixpoint str_mem (c : ascii) (s : string) : bool :=
  match s with
  | String c' s' => Ascii.eqb c c' || str_mem c s'
  | EmptyString => false
  end.

Definition hex_digit (n : N) : ascii :=
  if (n <? 10)%N then ascii_of_N (48 + n) else ascii_of_N (87 + n).

Definition repr_char (quote c : ascii) : string :=
  let n := N_of_ascii c in
  if Ascii.eqb c quote || Ascii.eqb c backslash then String backslash (String c "")
  else if (n =? 9)%N then String backslash "t"
  else if (n =? 10)%N then String backslash "n"
  else if (n =? 13)%N then String backslash "r"
  else if (n <? 32)%N || (n =? 127)%N then
    String backslash (String "x" (String (hex_digit (n / 16)) (String (hex_digit (n mod 16)) "")))
  else String c "".

Fixpoint repr_body (quote : ascii) (s : string) : string :=
  match s with
  | String c s' => repr_char quote c +:+ repr_body quote s'
  | EmptyString => String quote ""
  end.

Definition py_repr (s : string) : string :=
  let quote := if str_mem squote s && negb (str_mem dquote s) then dquote else squote in
  String quote (repr_body quote s).

Fixpoint str_take (n : nat) (s : string) : string :=
  match n, s with
  | S n', String c s' => String c (str_take n' s')
  | _, _ => ""
  end.

(** The text of the [ValueError] of [int(s)]; CPython formats the value
    with [%.200R]. *)
Definition int_literal_msg (s : string) : string :=
  "invalid literal for int() with base 10: " +:+ str_take 200 (py_repr s).

(** The text of the [TypeError] of [int(v)] (wording of Python 3.10 and
    later). *)
Definition int_type_msg (v : pyval) : string :=
  "int() argument must be a string, a bytes-like object or a real number, not '"
    +:+ type_name v +:+ "'".

(** [int(f)] for a float: truncation towards zero. *)
Definition int_of_float (f : spec_float) : exn + Z :=
  match f with
  | S754_nan => inl (Exn ValueError "cannot convert float NaN to integer")
  | S754_infinity _ => inl (Exn OverflowError "cannot convert float infinity to integer")
  | S754_zero _ => inr 0
  | S754_finite sgn m e =>
      let a := if 0 <=? e then Z.pos m * 2 ^ e else Z.pos m / 2 ^ (- e) in
      inr (if sgn then - a else a)
  end.

(** [int(v)] *)
Definition py_int (v : pyval) : exn + Z :=
  match v with
  | PBool b => inr (if b then 1 else 0)
  | PInt z => inr z
  | PFloat f => int_of_float f
  | PStr s =>
      match int_of_string s with
      | Some z => inr z
      | None => inl (Exn ValueError (int_literal_msg s))
      end
  | PNone | PList _ | PDict _ => inl (Exn TypeError (int_type_msg v))
  end.

(** [v.items()]: defined on dictionaries only. *)
Definition py_items (v : pyval) : exn + list (string * pyval) :=
  match v with
  | PDict d => inr d
  | _ => inl (Exn AttributeError ("'" +:+ type_name v +:+ "' object has no attribute 'items'"))
  end.

(** [v.get(key)] *)
Definition py_get (v : pyval) (key : string) : exn + pyval :=
  match v with
  | PDict d => inr (default PNone (dict_get key d))
  | _ => inl (Exn AttributeError ("'" +:+ type_name v +:+ "' object has no attribute 'get'"))
  end.

(** [{k: int(v) for k, v in items}]: the values are converted in order and
    the first failure ends the comprehension. *)
Fixpoint int_dict_from (acc : list (string * Z)) (items : list (string * pyval))
  : exn + list (string * Z) :=
  match items with
  | [] => inr acc
  | (k, v) :: rest =>
      match py_int v with
      | inl e => inl e
      | inr z => int_dict_from (dict_set k z acc) rest
      end
  end.

Definition int_dict (items : list (string * pyval)) : exn + list (string * Z) :=
  int_dict_from [] items.


(** ** Effects: a trace of observable events, and exceptions *)

Inductive event : Type :=
| LogInfo (msg : string)        (* logger.info(msg) *)
| PathExists (path : string)    (* os.path.exists(path) *)
| OpenRead (path : string).     (* open(path) followed by json.load *)

Definition M (A : Type) : Type := list event * (exn + A).

#[global] Instance M_ret : MRet M := fun A x => ([], inr x).
#[global] Instance M_bind : MBind M := fun A B f m =>
  match m with
  | (t, inl e) => (t, inl e)
  | (t, inr a) => let '(t', r) := f a in (t ++ t', r)
  end.

Definition raise {A} (e : exn) : M A := ([], inl e).
Definition lift {A} (r : exn + A) : M A := ([], r).
Definition emit (ev : event) : M unit := ([ev], inr tt).
Definition logger_info (msg : string) : M unit := emit (LogInfo msg).

(** [try: body  except Exception as e: handler e] *)
Definition try_except {A} (body : M A) (handler : exn -> M A) : M A :=
  match body with
  | (t, inl e) => let '(t', r) := handler e in (t ++ t', r)
  | (t, inr a) => (t, inr a)
  end.

(** [try: body  except ValueError: handler] *)
Definition try_except_ValueError {A} (body : M A) (handler : M A) : M A :=
  match body with
  | (t, inl e) =>
      if is_ValueError (exn_cls e) then let '(t', r) := handler in (t ++ t', r)
      else (t, inl e)
  | (t, inr a) => (t, inr a)
  end.

(** ** The world the script runs in *)

(** What is found at a path: a file whose text can be read, or something
    that exists but cannot be opened or decoded (the exception it gives). *)
Inductive fnode : Type :=
| FileText (text : string)
| Unreadable (e : exn).

Record world : Type := World {
  environ : gmap string string;
  files : gmap string fnode
}.

Definition os_getenv (w : world) (name : string) : option string :=
  environ w !! name.

(** An optional string as a Python value. *)
Definition py_of (o : option string) : pyval :=
  match o with Some s => PStr s | None => PNone end.

(** [format(o)] inside an f-string *)
Definition py_format (o : option string) : string := default "None" o.

(** ** The module-level names bound by a successful import *)

Record config : Type := Config {
  DISCORD_TOKEN : string;
  SERVER_ID : Z;
  BOT_CHANNEL_ID : Z;
  API_CLIENT_ID : option string;
  API_CLIENT_SECRET : option string;
  DATABASE_URL : string;
  POST_REQUEST_URL : option string;
  POST_REQUEST_TOKEN : option string;
  ROLES : list (string * Z);
  REV_ROLES : list (Z * string);
  ROLES_VALUE : list (string * Z);
  PERVERT_ROLE : option Z;
  BOT_SELF_ID : option Z;
  BOTSPAM_CHANNEL_ID : option Z;
  MODS_DICT : list (string * Z);
  RANK_EMOJI : pyval;
  USER_NEWBEST_LIMIT : list (string * Z);
  ROLE_TRESHOLDS : list (string * Z)
}.

(** [dict((v, k) for k, v in ROLES.items())] *)
Definition rev_roles (roles : list (string * Z)) : list (Z * string) :=
  dict_of_pairs ((fun kv => (kv.2, kv.1)) <$> roles).

(** [dict((key, count) for count, key in enumerate(ROLES.keys()))] *)
Definition roles_value (roles : list (string * Z)) : list (string * Z) :=
  dict_of_pairs (imap (fun count key => (key, Z.of_nat count)) (dict_keys roles)).

Section Resolver.
(** [json.loads]: the parsed value, or the exception it raises. *)
Variable json_loads : string -> exn + pyval.
(** [abspath(join(dirname(__file__), "..", "mappings.json"))] *)
Variable default_mappings_path : string.

Definition mappings_path (w : world) : string :=
  default default_mappings_path (os_getenv w "MAPPINGS_FILE").

Definition os_path_exists (w : world) (path : string) : M bool :=
  emit (PathExists path);; mret (bool_decide (is_Some (files w !! path))).

(** [with open(path) as fh: data = json.load(fh)] *)
Definition open_json_load (w : world) (path : string) : M pyval :=
  emit (OpenRead path);;
  match files w !! path with
  | Some (FileText text) => lift (json_loads text)
  | Some (Unreadable e) => raise e
  | None => raise (Exn OSError ("[Errno 2] No such file or directory: " +:+ py_repr path))
  end.

Definition _load_from_mappings_file (w : world) (key : string) : M pyval :=
  let mappings_path := mappings_path w in
  present ← os_path_exists w mappings_path;
  if negb present then mret PNone
  else
    loaded ← try_except
      (data ← open_json_load w mappings_path; mret (Some data))
      (fun e =>
         logger_info ("Failed to read mappings file '" +:+ mappings_path
                        +:+ "': " +:+ exn_str e);;
         mret None);
    match loaded with
    | None => mret PNone
    | Some data => lift (py_get data key)
    end.

(** *** Discord configuration *)

(** [if not (x := os.getenv(name)): raise ValueError(...)] *)
Definition required (w : world) (name : string) : M string :=
  match os_getenv w name with
  | Some s =>
      if truthy (PStr s) then mret s
      else raise (Exn ValueError (name +:+ " environment variable is required"))
  | None => raise (Exn ValueError (name +:+ " environment variable is required"))
  end.

Definition discord_configuration (w : world) : M (string * Z * Z) :=
  discord_token ← required w "DISCORD_TOKEN";
  server_id ← required w "SERVER_ID";
  channel_id ← required w "BOT_CHANNEL_ID";
  SERVER_ID ← lift (py_int (PStr server_id));
  BOT_CHANNEL_ID ← lift (py_int (PStr channel_id));
  mret (discord_token, SERVER_ID, BOT_CHANNEL_ID).

(** *** Database configuration *)

Definition bind_DATABASE_URL (w : world) : string :=
  let database_url := os_getenv w "DATABASE_URL" in
  let postgres_user := os_getenv w "POSTGRES_USER" in
  let postgres_password := os_getenv w "POSTGRES_PASSWORD" in
  let postgres_db := os_getenv w "POSTGRES_DB" in
  if truthy (py_of database_url) then default "" database_url
  else "postgresql://" +:+ py_format postgres_user +:+ ":"
         +:+ py_format postgres_password +:+ "@db:5432/" +:+ py_format postgres_db.

(** *** Mapping-valued settings: environment first, then mappings file *)

(** [x = os.getenv(env_name)] then [if not x: x = _load_from_mappings_file(key)] *)
Definition read_sources (w : world) (env_name file_key : string) : M pyval :=
  let _env := py_of (os_getenv w env_name) in
  if negb (truthy _env) then _load_from_mappings_file w file_key else mret _env.

(** [json.loads(raw) if isinstance(raw, str) else raw] *)
Definition decode_raw (raw : pyval) : M pyval :=
  match raw with
  | PStr s => lift (json_loads s)
  | _ => mret raw
  end.

Definition invalid_json (name : string) (e : exn) : exn :=
  Exn ValueError ("Invalid " +:+ name +:+ " JSON provided (env or file): " +:+ exn_str e).

(** The statements that follow the lookup for ROLES, MODS_DICT,
    USER_NEWBEST_LIMIT and ROLE_THRESHOLDS: decode, then convert every
    value with [int]; any exception becomes a [ValueError]. *)
Definition int_mapping_of (name log_msg : string) (raw : pyval)
  : M (list (string * Z)) :=
  if truthy raw then
    try_except
      (obj ← decode_raw raw;
       items ← lift (py_items obj);
       lift (int_dict items))
      (fun e => raise (invalid_json name e))
  else
    logger_info log_msg;; mret [].

Definition int_mapping (w : world) (env_name file_key log_msg : string)
  : M (list (string * Z)) :=
  raw ← read_sources w env_name file_key;
  int_mapping_of file_key log_msg raw.

(** RANK_EMOJI: the decoded value is kept as it is. *)
Definition opaque_mapping_of (name log_msg : string) (raw : pyval) : M pyval :=
  if truthy raw then
    try_except (decode_raw raw) (fun e => raise (invalid_json name e))
  else
    logger_info log_msg;; mret (PDict []).

Definition opaque_mapping (w : world) (env_name file_key log_msg : string)
  : M pyval :=
  raw ← read_sources w env_name file_key;
  opaque_mapping_of file_key log_msg raw.

Definition bind_ROLES (w : world) : M (list (string * Z)) :=
  int_mapping w "ROLES_JSON" "ROLES"
    "No role mappings configured (no ROLES_JSON env and no mappings file)".

Definition bind_MODS_DICT (w : world) : M (list (string * Z)) :=
  int_mapping w "MODS_DICT_JSON" "MODS_DICT"
    "MODS_DICT not provided via env or mappings file; MODS_DICT set to empty mapping".

Definition bind_RANK_EMOJI (w : world) : M pyval :=
  opaque_mapping w "RANK_EMOJI_JSON" "RANK_EMOJI"
    "No rank emojis configured (no RANK_EMOJI_JSON env and no mappings file)".

Definition bind_USER_NEWBEST_LIMIT (w : world) : M (list (string * Z)) :=
  int_mapping w "USER_NEWBEST_LIMIT_JSON" "USER_NEWBEST_LIMIT"
    "No USER_NEWBEST_LIMIT configured (no env and no mappings file)".

Definition bind_ROLE_TRESHOLDS (w : world) : M (list (string * Z)) :=
  int_mapping w "ROLE_THRESHOLDS_JSON" "ROLE_THRESHOLDS"
    "No ROLE_THRESHOLDS configured (no env and no mappings file)".

(** *** Single-value settings *)

Definition optional_id (w : world) (name err_msg log_msg : string) : M (option Z) :=
  let _env := py_of (os_getenv w name) in
  if truthy _env then
    try_except_ValueError
      (z ← lift (py_int _env); mret (Some z))
      (raise (Exn ValueError err_msg))
  else
    logger_info log_msg;; mret None.

Definition bind_PERVERT_ROLE (w : world) : M (option Z) :=
  optional_id w "PERVERT_ROLE" "PERVERT_ROLE must be an integer role id"
    "PERVERT_ROLE not configured; PERVERT_ROLE set to None".

Definition bind_BOT_SELF_ID (w : world) : M (option Z) :=
  optional_id w "BOT_SELF_ID" "BOT_SELF_ID must be an integer id"
    "BOT_SELF_ID not configured; BOT_SELF_ID set to None".

Definition bind_BOTSPAM_CHANNEL_ID (w : world) : M (option Z) :=
  optional_id w "BOTSPAM_CHANNEL_ID" "BOTSPAM_CHANNEL_ID must be an integer channel id"
    "BOTSPAM_CHANNEL_ID not configured; BOTSPAM_CHANNEL_ID set to None".

(** *** The whole script, top to bottom *)

Definition config_module (w : world) : M config :=
  '(discord_token, server_id, channel_id) ← discord_configuration w;
  let api_client_id := os_getenv w "API_CLIENT_ID" in
  let api_client_secret := os_getenv w "API_CLIENT_SECRET" in
  let database_url := bind_DATABASE_URL w in
  let post_request_url := os_getenv w "POST_REQUEST_URL" in
  let post_request_token := os_getenv w "POST_REQUEST_TOKEN" in
  roles ← bind_ROLES w;
  let rev := rev_roles roles in
  let rank := roles_value roles in
  pervert_role ← bind_PERVERT_ROLE w;
  bot_self_id ← bind_BOT_SELF_ID w;
  botspam_channel_id ← bind_BOTSPAM_CHANNEL_ID w;
  mods_dict ← bind_MODS_DICT w;
  rank_emoji ← bind_RANK_EMOJI w;
  user_newbest_limit ← bind_USER_NEWBEST_LIMIT w;
  role_tresholds ← bind_ROLE_TRESHOLDS w;
  mret {| DISCORD_TOKEN := discord_token;
          SERVER_ID := server_id;
          BOT_CHANNEL_ID := channel_id;
          API_CLIENT_ID := api_client_id;
          API_CLIENT_SECRET := api_client_secret;
          DATABASE_URL := database_url;
          POST_REQUEST_URL := post_request_url;
          POST_REQUEST_TOKEN := post_request_token;
          ROLES := roles;
          REV_ROLES := rev;
          ROLES_VALUE := rank;
          PERVERT_ROLE := pervert_role;
          BOT_SELF_ID := bot_self_id;
          BOTSPAM_CHANNEL_ID := botspam_channel_id;
          MODS_DICT := mods_dict;
          RANK_EMOJI := rank_emoji;
          USER_NEWBEST_LIMIT := user_newbest_limit;
          ROLE_TRESHOLDS := role_tresholds |}.

End Resolver.

(** ** A reader for JSON text

    [RefJSON.loads] follows the grammar accepted by Python's [json]
    module: the four blanks, [null], [true], [false], [NaN], [Infinity],
    [-Infinity], numbers (a float as soon as a fraction or an exponent is
    present), strings with their escapes, arrays and objects (a repeated
    key keeps its first position and its last value).  A text that is
    not accepted gives [decode_error]: the message and the position that
    Python reports in its [JSONDecodeError] are not reproduced, and the
    interpreter's limit on nesting depth is not modelled. *)

Module RefJSON.

Definition is_ws (c : ascii) : bool :=
  let n := N_of_ascii c in
  (n =? 32)%N || (n =? 9)%N || (n =? 10)%N || (n =? 13)%N.

Fixpoint skip_ws (s : string) : string :=
  match s with
  | String c s' => if is_ws c then skip_ws s' else s
  | EmptyString => s
  end.

Fixpoint strip_prefix (p s : string) : option string :=
  match p, s with
  | EmptyString, _ => Some s
  | String a p', String b s' => if Ascii.eqb a b then strip_prefix p' s' else None
  | String _ _, EmptyString => None
  end.

Fixpoint read_digits (s : string) : list Z * string :=
  match s with
  | String c s' =>
      match digit_value c with
      | Some d => let '(ds, r) := read_digits s' in (d :: ds, r)
      | None => ([], s)
      end
  | EmptyString => ([], s)
  end.

Definition digits_value (ds : list Z) : Z :=
  fold_left (fun acc d => 10 * acc + d) ds 0.

(** The binary64 value nearest to [n * 10 ^ k] (ties to even), [n >= 0]. *)
Definition float_of_decimal (neg : bool) (n k : Z) : spec_float :=
  let signed m := if neg then - m else m in
  if n =? 0 then S754_zero neg
  else if 0 <=? k then binary_normalize 53 1024 (signed (n * 10 ^ k)) 0 neg
  else
    let d := 10 ^ (- k) in
    let sh := Z.max 0 (64 + Z.log2 d - Z.log2 n) in
    let q := (n * 2 ^ sh) / d in
    let sticky := if (n * 2 ^ sh) mod d =? 0 then 0 else 1 in
    binary_normalize 53 1024 (signed (2 * q + sticky)) (- (sh + 1)) neg.

(** A number: an optional minus sign; then 0, or a non-zero digit and
    more digits; then optionally a dot and digits; then optionally e or
    E, a sign and digits. *)
Definition parse_number (s : string) : option (pyval * string) :=
  let '(neg, s1) :=
    match s with String "-" r => (true, r) | _ => (false, s) end in
  let '(ids, s2) :=
    match s1 with String "0" r => ([0], r) | _ => read_digits s1 end in
  match ids with
  | [] => None
  | _ =>
      let '(fds, s3) :=
        match s2 with
        | String "." r =>
            match read_digits r with
            | ([], _) => ([], s2)
            | (ds, r') => (ds, r')
            end
        | _ => ([], s2)
        end in
      let '(ex, s4) :=
        match s3 with
        | String c r =>
            if Ascii.eqb c "e" || Ascii.eqb c "E" then
              let '(eneg, r1) :=
                match r with
                | String "-" r' => (true, r')
                | String "+" r' => (false, r')
                | _ => (false, r)
                end in
              match read_digits r1 with
              | ([], _) => (None, s3)
              | (ds, r2) =>
                  (Some (if eneg then - digits_value ds else digits_value ds), r2)
              end
            else (None, s3)
        | EmptyString => (None, s3)
        end in
      match fds, ex with
      | [], None =>
          Some (PInt (if neg then - digits_value ids else digits_value ids), s4)
      | _, _ =>
          Some (PFloat (float_of_decimal neg (digits_value (ids ++ fds))
                          (default 0 ex - Z.of_nat (length fds))), s4)
      end
  end.

Definition hex_value (c : ascii) : option N :=
  let n := N_of_ascii c in
  if (48 <=? n)%N && (n <=? 57)%N then Some (n - 48)%N
  else if (97 <=? n)%N && (n <=? 102)%N then Some (n - 87)%N
  else if (65 <=? n)%N && (n <=? 70)%N then Some (n - 55)%N
  else None.

Definition hex4 (a b c d : ascii) : option N :=
  x1 ← hex_value a; x2 ← hex_value b; x3 ← hex_value c; x4 ← hex_value d;
  Some (((x1 * 16 + x2) * 16 + x3) * 16 + x4)%N.

(** The UTF-8 bytes of a code point. *)
Definition utf8 (cp : N) : string :=
  let byte n := ascii_of_N n in
  (if cp <? 128 then String (byte cp) ""
   else if cp <? 2048 then
     String (byte (192 + cp / 64)) (String (byte (128 + cp mod 64)) "")
   else if cp <? 65536 then
     String (byte (224 + cp / 4096))
       (String (byte (128 + (cp / 64) mod 64)) (String (byte (128 + cp mod 64)) ""))
   else
     String (byte (240 + cp / 262144))
       (String (byte (128 + (cp / 4096) mod 64))
          (String (byte (128 + (cp / 64) mod 64)) (String (byte (128 + cp mod 64)) ""))))%N.

Definition simple_escape (c : ascii) : option ascii :=
  if Ascii.eqb c dquote then Some dquote
  else if Ascii.eqb c backslash then Some backslash
  else if Ascii.eqb c "/" then Some "/"%char
  else if Ascii.eqb c "b" then Some (ascii_of_nat 8)
  else if Ascii.eqb c "f" then Some (ascii_of_nat 12)
  else if Ascii.eqb c "n" then Some (ascii_of_nat 10)
  else if Ascii.eqb c "r" then Some (ascii_of_nat 13)
  else if Ascii.eqb c "t" then Some (ascii_of_nat 9)
  else None.

Definition is_high (cp : N) : bool := (55296 <=? cp)%N && (cp <=? 56319)%N.
Definition is_low (cp : N) : bool := (56320 <=? cp)%N && (cp <=? 57343)%N.

Definition with_prefix (p : string) (r : option (string * string))
  : option (string * string) :=
  '(body, rest) ← r; Some (p +:+ body, rest).

(** The text of a string after its opening quote, and what follows the
    closing quote. *)
Fixpoint parse_string_body (s : string) : option (string * string) :=
  match s with
  | EmptyString => None
  | String c s' =>
      if Ascii.eqb c dquote then Some ("", s')
      else if (N_of_ascii c <? 32)%N then None
      else if Ascii.eqb c backslash then
        match s' with
        | String e s'' =>
            match simple_escape e with
            | Some ch => with_prefix (String ch "") (parse_string_body s'')
            | None =>
                if Ascii.eqb e "u" then
                  match s'' with
                  | String h1 (String h2 (String h3 (String h4 r))) =>
                      match hex4 h1 h2 h3 h4 with
                      | Some cp =>
                          match r with
                          | String b (String u (String l1 (String l2 (String l3 (String l4 r2))))) =>
                              if is_high cp && Ascii.eqb b backslash && Ascii.eqb u "u" then
                                match hex4 l1 l2 l3 l4 with
                                | Some lo =>
                                    if is_low lo then
                                      with_prefix
                                        (utf8 (65536 + (cp - 55296) * 1024 + (lo - 56320))%N)
                                        (parse_string_body r2)
                                    else with_prefix (utf8 cp) (parse_string_body r)
                                | None => None
                                end
                              else with_prefix (utf8 cp) (parse_string_body r)
                          | _ => with_prefix (utf8 cp) (parse_string_body r)
                          end
                      | None => None
                      end
                  | _ => None
                  end
                else None
            end
        | EmptyString => None
        end
      else with_prefix (String c "") (parse_string_body s')
  end.

Definition literal (name : string) (v : pyval) (s : string) : option (pyval * string) :=
  rest ← strip_prefix name s; Some (v, rest).

(** One value at the head of [s] (no leading blank), and the rest. *)
Fixpoint parse_value (fuel : nat) (s : string) : option (pyval * string) :=
  match fuel with
  | O => None
  | S fuel' =>
      match s with
      | EmptyString => None
      | String c s' =>
          if Ascii.eqb c dquote then
            '(str, r) ← parse_string_body s'; Some (PStr str, r)
          else if Ascii.eqb c "{" then
            match skip_ws s' with
            | String "}" r => Some (PDict [], r)
            | s1 => parse_members fuel' [] s1
            end
          else if Ascii.eqb c "[" then
            match skip_ws s' with
            | String "]" r => Some (PList [], r)
            | s1 => parse_elements fuel' [] s1
            end
          else if Ascii.eqb c "n" then literal "null" PNone s
          else if Ascii.eqb c "t" then literal "true" (PBool true) s
          else if Ascii.eqb c "f" then literal "false" (PBool false) s
          else if Ascii.eqb c "N" then literal "NaN" (PFloat S754_nan) s
          else if Ascii.eqb c "I" then literal "Infinity" (PFloat (S754_infinity false)) s
          else
            match literal "-Infinity" (PFloat (S754_infinity true)) s with
            | Some r => Some r
            | None => parse_number s
            end
      end
  end
with parse_members (fuel : nat) (acc : list (string * pyval)) (s : string)
  : option (pyval * string) :=
  match fuel with
  | O => None
  | S fuel' =>
      match s with
      | String c s1 =>
          if Ascii.eqb c dquote then
            '(k, r1) ← parse_string_body s1;
            match skip_ws r1 with
            | String ":" r2 =>
                '(v, r3) ← parse_value fuel' (skip_ws r2);
                let acc' := dict_set k v acc in
                match skip_ws r3 with
                | String "}" r4 => Some (PDict acc', r4)
                | String "," r4 => parse_members fuel' acc' (skip_ws r4)
                | _ => None
                end
            | _ => None
            end
          else None
      | EmptyString => None
      end
  end
with parse_elements (fuel : nat) (acc : list pyval) (s : string)
  : option (pyval * string) :=
  match fuel with
  | O => None
  | S fuel' =>
      '(v, r1) ← parse_value fuel' s;
      match skip_ws r1 with
      | String "]" r2 => Some (PList (acc ++ [v]), r2)
      | String "," r2 => parse_elements fuel' (acc ++ [v]) (skip_ws r2)
      | _ => None
      end
  end.

Definition decode_error : exn := Exn JSONDecodeError "JSON text not accepted".

(** [json.loads(s)]: one value, blanks allowed around it, nothing else. *)
Definition loads (s : string) : exn + pyval :=
  match parse_value (S (String.length s)) (skip_ws s) with
  | Some (v, rest) =>
      match skip_ws rest with
      | EmptyString => inr v
      | _ => inl decode_error
      end
  | None => inl decode_error
  end.

(** JSON text written with single quotes in place of double quotes. *)
Fixpoint json_text (s : string) : string :=
  match s with
  | String c s' => String (if Ascii.eqb c squote then dquote else c) (json_text s')
  | EmptyString => EmptyString
  end.

End RefJSON.


(** ** Vocabulary of the statements *)

(** [not os.getenv(name)]: the variable is unset, or set to the empty
    string. *)
Definition unset (w : world) (name : string) : bool :=
  negb (truthy (py_of (os_getenv w name))).

Definition required_keys : list string :=
  ["DISCORD_TOKEN"; "SERVER_ID"; "BOT_CHANNEL_ID"].

Definition required_msg (name : string) : string :=
  name +:+ " environment variable is required".

(** [needle in hay] *)
Fixpoint str_contains (needle hay : string) : bool :=
  String.prefix needle hay ||
  match hay with
  | String _ hay' => str_contains needle hay'
  | EmptyString => false
  end.




(** Environments and file systems given by their entries. *)
Definition world_of (env : list (string * string)) (fs : list (string * fnode)) : world :=
  World (list_to_map env) (list_to_map fs).


(** Sample environments. *)
Definition env_minimal : list (string * string) :=
  [("DISCORD_TOKEN", "token"); ("SERVER_ID", "1234"); ("BOT_CHANNEL_ID", "-5_678 ")].

Definition env_no_server : list (string * string) :=
  [("DISCORD_TOKEN", "token"); ("SERVER_ID", ""); ("BOT_CHANNEL_ID", "5678")].


Definition sample_path : string := "/app/mappings.json".

(** The optional single-value settings. *)
Inductive optional_key : Type :=
| K_PERVERT_ROLE | K_BOT_SELF_ID | K_BOTSPAM_CHANNEL_ID.

Definition optional_name (k : optional_key) : string :=
  match k with
  | K_PERVERT_ROLE => "PERVERT_ROLE"
  | K_BOT_SELF_ID => "BOT_SELF_ID"
  | K_BOTSPAM_CHANNEL_ID => "BOTSPAM_CHANNEL_ID"
  end.

Definition bind_optional (k : optional_key) (w : world) : M (option Z) :=
  match k with
  | K_PERVERT_ROLE => bind_PERVERT_ROLE w
  | K_BOT_SELF_ID => bind_BOT_SELF_ID w
  | K_BOTSPAM_CHANNEL_ID => bind_BOTSPAM_CHANNEL_ID w
  end.

Definition optional_field (k : optional_key) (cfg : config) : option Z :=
  match k with
  | K_PERVERT_ROLE => PERVERT_ROLE cfg
  | K_BOT_SELF_ID => BOT_SELF_ID cfg
  | K_BOTSPAM_CHANNEL_ID => BOTSPAM_CHANNEL_ID cfg
  end.

(** The informational message logged when the setting is left out. *)
Definition optional_log (k : optional_key) : string :=
  optional_name k +:+ " not configured; " +:+ optional_name k +:+ " set to None".

Definition env_optional : list (string * string) :=
  env_minimal ++ [("PERVERT_ROLE", "role"); ("BOT_SELF_ID", "42")].

(** The settings served by the environment and by the mappings file. *)
Inductive mapping_key : Type :=
| K_ROLES | K_MODS_DICT | K_RANK_EMOJI | K_USER_NEWBEST_LIMIT | K_ROLE_THRESHOLDS.

(** The key of the setting in the mappings file. *)
Definition mapping_name (k : mapping_key) : string :=
  match k with
  | K_ROLES => "ROLES"
  | K_MODS_DICT => "MODS_DICT"
  | K_RANK_EMOJI => "RANK_EMOJI"
  | K_USER_NEWBEST_LIMIT => "USER_NEWBEST_LIMIT"
  | K_ROLE_THRESHOLDS => "ROLE_THRESHOLDS"
  end.

(** The environment variable of the setting. *)
Definition mapping_env (k : mapping_key) : string := mapping_name k +:+ "_JSON".

(** The informational message logged when no source provides the setting. *)
Definition mapping_log (k : mapping_key) : string :=
  match k with
  | K_ROLES => "No role mappings configured (no ROLES_JSON env and no mappings file)"
  | K_MODS_DICT =>
      "MODS_DICT not provided via env or mappings file; MODS_DICT set to empty mapping"
  | K_RANK_EMOJI =>
      "No rank emojis configured (no RANK_EMOJI_JSON env and no mappings file)"
  | K_USER_NEWBEST_LIMIT => "No USER_NEWBEST_LIMIT configured (no env and no mappings file)"
  | K_ROLE_THRESHOLDS => "No ROLE_THRESHOLDS configured (no env and no mappings file)"
  end.

(** Whether the values of the setting go through [int]. *)
Definition int_valued (k : mapping_key) : bool :=
  match k with K_RANK_EMOJI => false | _ => true end.

(** A dictionary of integers seen as a Python value. *)
Definition py_of_int_dict (d : list (string * Z)) : pyval :=
  PDict ((fun kz => (kz.1, PInt kz.2)) <$> d).

#[global] Instance M_fmap : FMap M := fun A B f m => m ≫= (fun x => mret (f x)).

(** The statements that bind the setting, with the result as a Python
    value. *)
Definition bind_mapping (json_loads : string -> exn + pyval) (default_path : string)
    (k : mapping_key) (w : world) : M pyval :=
  match k with
  | K_ROLES => py_of_int_dict <$> bind_ROLES json_loads default_path w
  | K_MODS_DICT => py_of_int_dict <$> bind_MODS_DICT json_loads default_path w
  | K_RANK_EMOJI => bind_RANK_EMOJI json_loads default_path w
  | K_USER_NEWBEST_LIMIT => py_of_int_dict <$> bind_USER_NEWBEST_LIMIT json_loads default_path w
  | K_ROLE_THRESHOLDS => py_of_int_dict <$> bind_ROLE_TRESHOLDS json_loads default_path w
  end.

(** The part of those statements that follows the lookup of the raw value. *)
Definition coerce_mapping (json_loads : string -> exn + pyval)
    (k : mapping_key) (raw : pyval) : M pyval :=
  if int_valued k then
    py_of_int_dict <$> int_mapping_of json_loads (mapping_name k) (mapping_log k) raw
  else opaque_mapping_of json_loads (mapping_name k) (mapping_log k) raw.

Definition mapping_field (k : mapping_key) (cfg : config) : pyval :=
  match k with
  | K_ROLES => py_of_int_dict (ROLES cfg)
  | K_MODS_DICT => py_of_int_dict (MODS_DICT cfg)
  | K_RANK_EMOJI => RANK_EMOJI cfg
  | K_USER_NEWBEST_LIMIT => py_of_int_dict (USER_NEWBEST_LIMIT cfg)
  | K_ROLE_THRESHOLDS => py_of_int_dict (ROLE_TRESHOLDS cfg)
  end.

(** The diagnostic of [_load_from_mappings_file]. *)
Definition failed_to_read (path : string) (e : exn) : string :=
  "Failed to read mappings file '" +:+ path +:+ "': " +:+ exn_str e.

(** The object that the decoding step works on: the parsed text when the
    raw value is a string, the raw value itself otherwise. *)
Definition decodes_to (json_loads : string -> exn + pyval) (raw obj : pyval) : Prop :=
  match raw with
  | PStr s => json_loads s = inr obj
  | _ => raw = obj
  end.

(** A world without any file, same environment. *)
Definition without_files (w : world) : world := World (environ w) ∅.

(** The name of the last entry of [roles] whose id is [id]. *)
Fixpoint last_name_of (id : Z) (roles : list (string * Z)) : option string :=
  match roles with
  | [] => None
  | (name, v) :: rest =>
      match last_name_of id rest with
      | Some n => Some n
      | None => if decide (v = id) then Some name else None
      end
  end.

(** Each name with its position in the list. *)
Definition positions (roles : list (string * Z)) : list (string * Z) :=
  imap (fun i kv => (kv.1, Z.of_nat i)) roles.

(** The same configuration with another DATABASE_URL. *)
Definition with_DATABASE_URL (url : string) (cfg : config) : config :=
  {| DISCORD_TOKEN := DISCORD_TOKEN cfg;
     SERVER_ID := SERVER_ID cfg;
     BOT_CHANNEL_ID := BOT_CHANNEL_ID cfg;
     API_CLIENT_ID := API_CLIENT_ID cfg;
     API_CLIENT_SECRET := API_CLIENT_SECRET cfg;
     DATABASE_URL := url;
     POST_REQUEST_URL := POST_REQUEST_URL cfg;
     POST_REQUEST_TOKEN := POST_REQUEST_TOKEN cfg;
     ROLES := ROLES cfg;
     REV_ROLES := REV_ROLES cfg;
     ROLES_VALUE := ROLES_VALUE cfg;
     PERVERT_ROLE := PERVERT_ROLE cfg;
     BOT_SELF_ID := BOT_SELF_ID cfg;
     BOTSPAM_CHANNEL_ID := BOTSPAM_CHANNEL_ID cfg;
     MODS_DICT := MODS_DICT cfg;
     RANK_EMOJI := RANK_EMOJI cfg;
     USER_NEWBEST_LIMIT := USER_NEWBEST_LIMIT cfg;
     ROLE_TRESHOLDS := ROLE_TRESHOLDS cfg |}.

(** The variables read by the database block. *)
Definition db_vars : list string :=
  ["DATABASE_URL"; "POSTGRES_USER"; "POSTGRES_PASSWORD"; "POSTGRES_DB"].

(** The same world with those variables removed from the environment. *)
Definition unset_db (w : world) : world :=
  World (foldr delete (environ w) db_vars) (files w).

(** Sample mappings files and environments that use them. *)
Definition roles_file_text : string := RefJSON.json_text "{'ROLES': {'A': '7'}}".

Definition mappings_text : string :=
  RefJSON.json_text
    "{'ROLES': {'A': 1, 'B': '2', 'C': 1.0}, 'USER_NEWBEST_LIMIT': {}, 'RANK_EMOJI': {'S': ':s:'}}".

Definition bad_values_text : string :=
  RefJSON.json_text "{'MODS_DICT': {'HD': 8, 'XX': null}}".

Definition roles_env_text : string := RefJSON.json_text "{'B': 2}".
Definition emoji_env_text : string := RefJSON.json_text "{'S': 'x'}".

Definition fs_roles : list (string * fnode) := [(sample_path, FileText roles_file_text)].
Definition fs_sample : list (string * fnode) := [(sample_path, FileText mappings_text)].
Definition fs_malformed : list (string * fnode) := [(sample_path, FileText "{'ROLES': ")].
Definition fs_bad_values : list (string * fnode) := [(sample_path, FileText bad_values_text)].

Definition env_roles : list (string * string) :=
  env_minimal ++ [("ROLES_JSON", roles_env_text); ("USER_NEWBEST_LIMIT_JSON", "")].

Definition env_emoji : list (string * string) :=
  env_minimal ++ [("RANK_EMOJI_JSON", emoji_env_text)].

Definition env_bad_json : list (string * string) :=
  env_minimal ++ [("ROLES_JSON", "{bad")].

Definition env_database : list (string * string) :=
  env_minimal ++ [("DATABASE_URL", "postgres://example/db"); ("POSTGRES_USER", "bot")].

Definition env_postgres : list (string * string) :=
  env_minimal ++ [("DATABASE_URL", ""); ("POSTGRES_USER", "bot"); ("POSTGRES_DB", "osu")].

(** The import in a world with the sample file and the minimal environment. *)
Definition sample_run : M config :=
  Eval vm_compute in
    config_module RefJSON.loads sample_path (world_of env_minimal fs_sample).



(** ** Vocabulary of the further properties *)

(** The variables that the script reads, apart from MAPPINGS_FILE and the
    four of the database block. *)
Definition core_vars : list string :=
  ["DISCORD_TOKEN"; "SERVER_ID"; "BOT_CHANNEL_ID";
   "API_CLIENT_ID"; "API_CLIENT_SECRET"; "POST_REQUEST_URL"; "POST_REQUEST_TOKEN";
   "ROLES_JSON"; "PERVERT_ROLE"; "BOT_SELF_ID"; "BOTSPAM_CHANNEL_ID";
   "MODS_DICT_JSON"; "RANK_EMOJI_JSON"; "USER_NEWBEST_LIMIT_JSON"; "ROLE_THRESHOLDS_JSON"].

(** Every variable that the script reads. *)
Definition read_vars : list string := core_vars ++ "MAPPINGS_FILE" :: db_vars.

(** The variables copied into the configuration without any check. *)
Definition passthrough_vars : list string :=
  ["API_CLIENT_ID"; "API_CLIENT_SECRET"; "POST_REQUEST_URL"; "POST_REQUEST_TOKEN"].

Definition postgres_vars : list string :=
  ["POSTGRES_USER"; "POSTGRES_PASSWORD"; "POSTGRES_DB"].

(** The mapping settings in the order in which the script binds them. *)
Definition mapping_keys : list mapping_key :=
  [K_ROLES; K_MODS_DICT; K_RANK_EMOJI; K_USER_NEWBEST_LIMIT; K_ROLE_THRESHOLDS].

(** The mapping settings that the environment does not provide. *)
Definition unset_mappings (w : world) : list mapping_key :=
  List.filter (fun k => unset w (mapping_env k)) mapping_keys.

(** The paths probed with [os.path.exists], the paths opened, and the
    messages logged, in the order of the trace. *)
Definition probes (t : list event) : list string :=
  omap (fun ev => match ev with PathExists p => Some p | _ => None end) t.

Definition opens (t : list event) : list string :=
  omap (fun ev => match ev with OpenRead p => Some p | _ => None end) t.

Definition logs (t : list event) : list string :=
  omap (fun ev => match ev with LogInfo m => Some m | _ => None end) t.

(** A trace without any access to the file system. *)
Definition no_file_access (t : list event) : Prop := probes t = [] /\ opens t = [].

(** [isinstance(v, dict)] *)
Definition is_object (v : pyval) : bool :=
  match v with PDict _ => true | _ => false end.

(** The [AttributeError] raised by [v.attr] on a value that has no such
    attribute. *)
Definition no_attribute (v : pyval) (attr : string) : exn :=
  Exn AttributeError
    ("'" +:+ type_name v +:+ "' object has no attribute '" +:+ attr +:+ "'").

(** The configuration with the four unchecked settings as [w] gives them. *)
Definition with_passthrough (w : world) (cfg : config) : config :=
  {| DISCORD_TOKEN := DISCORD_TOKEN cfg;
     SERVER_ID := SERVER_ID cfg;
     BOT_CHANNEL_ID := BOT_CHANNEL_ID cfg;
     API_CLIENT_ID := os_getenv w "API_CLIENT_ID";
     API_CLIENT_SECRET := os_getenv w "API_CLIENT_SECRET";
     DATABASE_URL := DATABASE_URL cfg;
     POST_REQUEST_URL := os_getenv w "POST_REQUEST_URL";
     POST_REQUEST_TOKEN := os_getenv w "POST_REQUEST_TOKEN";
     ROLES := ROLES cfg;
     REV_ROLES := REV_ROLES cfg;
     ROLES_VALUE := ROLES_VALUE cfg;
     PERVERT_ROLE := PERVERT_ROLE cfg;
     BOT_SELF_ID := BOT_SELF_ID cfg;
     BOTSPAM_CHANNEL_ID := BOTSPAM_CHANNEL_ID cfg;
     MODS_DICT := MODS_DICT cfg;
     RANK_EMOJI := RANK_EMOJI cfg;
     USER_NEWBEST_LIMIT := USER_NEWBEST_LIMIT cfg;
     ROLE_TRESHOLDS := ROLE_TRESHOLDS cfg |}.

(** What the script can raise: a [ValueError], or the [AttributeError] of
    [data.get] when the mappings file holds JSON that is not an object. *)
Definition expected_error (json_loads : string -> exn + pyval) (default_path : string)
    (w : world) (e : exn) : Prop :=
  exn_cls e = ValueError \/
  exists text data,
    files w !! mappings_path default_path w = Some (FileText text) /\
    json_loads text = inr data /\ is_object data = false /\ e = no_attribute data "get".

(** Further sample worlds. *)
Definition fs_array : list (string * fnode) := [(sample_path, FileText "[1, 2]")].

Definition fs_directory : list (string * fnode) :=
  [(sample_path, Unreadable (Exn OSError "[Errno 21] Is a directory: '/app/mappings.json'"))].

Definition extra_keys_text : string :=
  RefJSON.json_text
    "{'comment': 'x', 'ROLES': {'A': 1, 'B': '2', 'C': 1.0}, 'USER_NEWBEST_LIMIT': {}, 'RANK_EMOJI': {'S': ':s:'}, 'version': 3}".

Definition fs_extra_keys : list (string * fnode) := [(sample_path, FileText extra_keys_text)].

Definition env_all_mappings : list (string * string) :=
  env_minimal ++
  [("ROLES_JSON", roles_env_text); ("MODS_DICT_JSON", roles_env_text);
   ("RANK_EMOJI_JSON", emoji_env_text); ("USER_NEWBEST_LIMIT_JSON", roles_env_text);
   ("ROLE_THRESHOLDS_JSON", roles_env_text)].

Definition env_roles_array : list (string * string) :=
  env_minimal ++ [("ROLES_JSON", "[1, 2]")].

Definition env_no_mappings_file : list (string * string) :=
  env_minimal ++ [("MAPPINGS_FILE", "")].

Definition env_with_home : list (string * string) := ("HOME", "/home/bot") :: env_minimal.

Definition fs_two_files : list (string * fnode) :=
  ("/app/other.json", FileText "[]") :: fs_sample.

(** [os.environ[name] = value] *)
Definition with_var (name value : string) (w : world) : world :=
  World (<[name := value]> (environ w)) (files w).

(** The import in a world whose mappings file gives one role. *)
Definition roles_run : M config :=
  Eval vm_compute in
    config_module RefJSON.loads sample_path (world_of env_minimal fs_roles).

(** * Properties of the resolver *)

(** ** The effect monad *)

Lemma bind_raise {A B} (e : exn) (f : A -> M B) : (raise e ≫= f) = raise e.
Proof. reflexivity. Qed.

Lemma bind_ret {A B} (x : A) (f : A -> M B) : (mret x ≫= f) = f x.
Proof. unfold mret, M_ret, mbind, M_bind. by destruct (f x). Qed.

Lemma bind_lift_inr {A B} (x : A) (f : A -> M B) : (lift (inr x) ≫= f) = f x.
Proof. apply bind_ret. Qed.

Lemma bind_lift_inl {A B} (e : exn) (f : A -> M B) : (lift (inl e) ≫= f) = raise e.
Proof. reflexivity. Qed.

Lemma bind_ok {A B} (t : list event) (x : A) (f : A -> M B) :
  ((t, inr x) ≫= f) = (t ++ (f x).1, (f x).2).
Proof. unfold mbind, M_bind. by destruct (f x). Qed.

Lemma bind_err {A B} (t : list event) (e : exn) (f : A -> M B) :
  ((t, inl e) ≫= f) = (t, inl e).
Proof. reflexivity. Qed.

(** A run that ends with a value went through a successful first part. *)
Lemma bind_inr_inv {A B} (m : M A) (f : A -> M B) t (b : B) :
  (m ≫= f) = (t, inr b) ->
  exists t1 a t2, m = (t1, inr a) /\ f a = (t2, inr b) /\ t = t1 ++ t2.
Proof.
  destruct m as [t1 [e | a]]; [discriminate |].
  rewrite bind_ok. destruct (f a) as [t2 r] eqn:Hf. simpl.
  intros [= <- ->]. by exists t1, a, t2.
Qed.

(** ** Required scalars *)

Lemma unset_true w name :
  unset w name = true <-> os_getenv w name = None \/ os_getenv w name = Some "".
Proof.
  unfold unset. destruct (os_getenv w name) as [s |]; simpl.
  - destruct s; simpl; split; intros H; try done; try by right.
    by destruct H.
  - split; [by left | done].
Qed.

Lemma unset_false w name :
  unset w name = false <-> exists s, os_getenv w name = Some s /\ s <> "".
Proof.
  unfold unset. destruct (os_getenv w name) as [s |]; simpl.
  - destruct s; simpl; split; try done.
    + by intros (? & [= <-] & ?).
    + intros _. eexists. split; [done | discriminate].
  - split; [done | by intros (? & ? & _)].
Qed.

Lemma required_unset w name :
  unset w name = true -> required w name = raise (Exn ValueError (required_msg name)).
Proof.
  unfold unset, required. destruct (os_getenv w name) as [s |]; simpl; [| done].
  by destruct (String.eqb s "").
Qed.

Lemma required_set w name s :
  os_getenv w name = Some s -> s <> "" -> required w name = mret s.
Proof.
  unfold required. intros -> Hs. simpl.
  destruct (String.eqb_spec s ""); [done | reflexivity].
Qed.

(** ** Dictionaries *)

Section DictFacts.
Context {K V : Type} `{EqDecision K}.
Implicit Types (d l : list (K * V)) (k : K) (v : V).

Lemma dict_get_set k k' v d :
  dict_get k (dict_set k' v d) = if decide (k = k') then Some v else dict_get k d.
Proof.
  induction d as [| [k0 v0] d IH]; simpl.
  - by repeat case_decide.
  - repeat (case_decide; simpl; simplify_eq); done.
Qed.

Lemma dict_set_fresh k v d : k ∉ dict_keys d -> dict_set k v d = d ++ [(k, v)].
Proof.
  unfold dict_keys. induction d as [| [k0 v0] d IH]; simpl; [done |].
  intros [Hne Hnin]%not_elem_of_cons. rewrite decide_False by done.
  by rewrite IH.
Qed.

Lemma dict_keys_set_in k v d :
  k ∈ dict_keys d -> dict_keys (dict_set k v d) = dict_keys d.
Proof.
  unfold dict_keys. induction d as [| [k0 v0] d IH]; intros Hin.
  - by apply elem_of_nil in Hin.
  - cbn [dict_set]. destruct (decide (k = k0)) as [-> | Hne]; [done |].
    rewrite !fmap_cons. f_equal. apply IH.
    rewrite fmap_cons in Hin. by apply elem_of_cons in Hin as [? | ?].
Qed.

(** Assignments never duplicate a key. *)
Lemma dict_set_NoDup k v d : NoDup (dict_keys d) -> NoDup (dict_keys (dict_set k v d)).
Proof.
  intros Hd. destruct (decide (k ∈ dict_keys d)) as [Hin | Hnin].
  - by rewrite dict_keys_set_in.
  - rewrite dict_set_fresh by done. unfold dict_keys in *. rewrite fmap_app.
    apply NoDup_app. split; [done |]. split; [| apply NoDup_singleton].
    intros x Hx ->%list_elem_of_singleton. done.
Qed.

(** [dict(l)] looks a key up as the last pair of [l] with that key. *)
Lemma dict_get_fold_set l : forall d k,
  dict_get k (fold_left (fun d kv => dict_set kv.1 kv.2 d) l d) =
    match dict_get k (rev l) with
    | Some v => Some v
    | None => dict_get k d
    end.
Proof.
  induction l as [| [k0 v0] l IH]; intros d k; simpl; [done |].
  rewrite IH, dict_get_set.
  assert (forall l1 : list (K * V),
            dict_get k (l1 ++ [(k0, v0)]) =
              match dict_get k l1 with
              | Some v => Some v
              | None => if decide (k = k0) then Some v0 else None
              end) as Happ.
  { induction l1 as [| [k1 v1] l1 IH1]; simpl; [done |].
    destruct (decide (k = k1)); [done | apply IH1]. }
  rewrite Happ. destruct (dict_get k (rev l)); [done | by case_decide].
Qed.

Lemma dict_get_of_pairs l k : dict_get k (dict_of_pairs l) = dict_get k (rev l).
Proof. unfold dict_of_pairs. rewrite dict_get_fold_set. by destruct (dict_get k (rev l)). Qed.

(** With distinct keys, [dict(l)] is [l] itself, in the same order. *)
Lemma fold_set_NoDup l : forall d,
  NoDup (dict_keys (d ++ l)) ->
  fold_left (fun d kv => dict_set kv.1 kv.2 d) l d = d ++ l.
Proof.
  unfold dict_keys. induction l as [| [k0 v0] l IH]; intros d Hnd; simpl.
  - by rewrite app_nil_r.
  - rewrite dict_set_fresh.
    + rewrite IH; rewrite <- app_assoc; done.
    + rewrite fmap_app in Hnd. apply NoDup_app in Hnd as (_ & Hdis & _).
      intros Hin. apply (Hdis _ Hin). simpl. apply elem_of_cons. by left.
Qed.

Lemma dict_of_pairs_NoDup l : NoDup (dict_keys l) -> dict_of_pairs l = l.
Proof. intros Hnd. unfold dict_of_pairs. by rewrite fold_set_NoDup. Qed.
End DictFacts.

Lemma int_dict_from_NoDup items : forall acc d,
  NoDup (dict_keys acc) -> int_dict_from acc items = inr d -> NoDup (dict_keys d).
Proof.
  induction items as [| [k v] items IH]; intros acc d Hacc; cbn [int_dict_from].
  - by intros [= <-].
  - destruct (py_int v) as [e | z]; [done |].
    apply IH. by apply dict_set_NoDup.
Qed.

Lemma rev_roles_last roles id : dict_get id (rev_roles roles) = last_name_of id roles.
Proof.
  unfold rev_roles. rewrite dict_get_of_pairs.
  induction roles as [| [name v] roles IH]; [done |].
  rewrite fmap_cons. cbn [rev last_name_of]. rewrite <- IH.
  generalize (rev ((fun kv : string * Z => (kv.2, kv.1)) <$> roles)). intros l.
  induction l as [| [k1 v1] l IHl]; simpl.
  - by repeat case_decide.
  - destruct (decide (id = k1)); [done | apply IHl].
Qed.

Lemma keys_imap (g : nat -> Z) (roles : list (string * Z)) :
  dict_keys (imap (fun i kv => (kv.1, g i)) roles) = dict_keys roles.
Proof.
  unfold dict_keys. revert g. induction roles as [| kv roles IH]; intros g; [done |].
  rewrite imap_cons, !fmap_cons. f_equal. apply (IH (g ∘ S)).
Qed.

(** With distinct names, the order index pairs each name with its position. *)
Lemma roles_value_positions roles :
  NoDup (dict_keys roles) -> roles_value roles = positions roles.
Proof.
  intros Hnd. unfold roles_value, dict_keys. rewrite imap_fmap.
  change (imap _ roles) with (positions roles).
  apply dict_of_pairs_NoDup. unfold positions. by rewrite keys_imap.
Qed.

(** ** The runtime on sample inputs *)

Example int_of_string_accepts :
  int_of_string "42" = Some 42 /\ int_of_string " -007 " = Some (-7) /\
  int_of_string "+1_000" = Some 1000 /\ int_of_string "0" = Some 0.
Proof. by vm_compute. Qed.

Example int_of_string_rejects :
  int_of_string "" = None /\ int_of_string "abc" = None /\
  int_of_string "1.0" = None /\ int_of_string "1__0" = None /\
  int_of_string "_1" = None /\ int_of_string "1_" = None /\
  int_of_string "- 1" = None /\ int_of_string "12 3" = None.
Proof. by vm_compute. Qed.

Example py_int_values :
  py_int (PStr "7") = inr 7 /\ py_int (PInt 7) = inr 7 /\ py_int (PBool true) = inr 1 /\
  py_int (PFloat (S754_finite true 15 (-1))) = inr (-7) /\
  py_int PNone = inl (Exn TypeError (int_type_msg PNone)) /\
  py_int (PStr "x") = inl (Exn ValueError "invalid literal for int() with base 10: 'x'").
Proof. by vm_compute. Qed.

Example loads_sample :
  RefJSON.loads roles_file_text = inr (PDict [("ROLES", PDict [("A", PStr "7")])]) /\
  RefJSON.loads (RefJSON.json_text " [1, -2.5, true, null, 'a'] ")
    = inr (PList [PInt 1; PFloat (S754_finite true 5629499534213120 (-51));
                  PBool true; PNone; PStr "a"]) /\
  RefJSON.loads "{bad" = inl RefJSON.decode_error /\
  RefJSON.loads "[1,]" = inl RefJSON.decode_error /\
  RefJSON.loads "1 2" = inl RefJSON.decode_error.
Proof. by vm_compute. Qed.

(** ** Text of the [int] error *)













(** ** Decimal text and [int] *)










Section Properties.
Variable json_loads : string -> exn + pyval.
Variable default_mappings_path : string.

Local Abbreviation config_module := (config_module json_loads default_mappings_path).

(** The three presence tests come first in the script, so a missing
    required variable is reported before anything else happens. *)
Lemma config_module_first_unset w k :
  find (unset w) required_keys = Some k ->
  config_module w = raise (Exn ValueError (required_msg k)).
Proof.
  unfold required_keys, config_module, discord_configuration. simpl.
  destruct (unset w "DISCORD_TOKEN") eqn:H1.
  { intros [= <-]. by rewrite (required_unset _ _ H1). }
  apply unset_false in H1 as (s1 & H1 & ?). rewrite (required_set _ _ _ H1) by done.
  rewrite !bind_ret.
  destruct (unset w "SERVER_ID") eqn:H2.
  { intros [= <-]. by rewrite (required_unset _ _ H2). }
  apply unset_false in H2 as (s2 & H2 & ?). rewrite (required_set _ _ _ H2) by done.
  rewrite !bind_ret.
  destruct (unset w "BOT_CHANNEL_ID") eqn:H3; [| done].
  intros [= <-]. by rewrite (required_unset _ _ H3).
Qed.

(** C2. For each of DISCORD_TOKEN, SERVER_ID and BOT_CHANNEL_ID: when the
    environment value is absent or the empty string, the import raises
    [ValueError("<KEY> environment variable is required")] for the first
    such key in script order, before any other effect; no configuration
    (hence no default value) is produced. *)
Theorem required_scalar_absent_is_fatal w name :
  name ∈ required_keys ->
  os_getenv w name = None \/ os_getenv w name = Some "" ->
  exists k,
    find (unset w) required_keys = Some k /\
    config_module w = ([], inl (Exn ValueError (required_msg k))) /\
    forall t cfg, config_module w <> (t, inr cfg).
Proof.
  intros Hin Habs. apply unset_true in Habs.
  assert (exists k, find (unset w) required_keys = Some k) as [k Hk].
  { destruct (find (unset w) required_keys) eqn:Hf; [by eexists |].
    eapply find_none in Hf; [| by apply list_elem_of_In]. congruence. }
  exists k. split; [done |].
  rewrite (config_module_first_unset _ _ Hk). split; [done | discriminate].
Qed.

(** What a successful import went through, block by block. *)
Lemma config_module_inv w t cfg :
  config_module w = (t, inr cfg) ->
  exists tok sid cid roles pervert self botspam mods emoji newbest thresholds,
    (discord_configuration w).2 = inr (tok, sid, cid) /\
    (bind_ROLES json_loads default_mappings_path w).2 = inr roles /\
    (bind_PERVERT_ROLE w).2 = inr pervert /\
    (bind_BOT_SELF_ID w).2 = inr self /\
    (bind_BOTSPAM_CHANNEL_ID w).2 = inr botspam /\
    (bind_MODS_DICT json_loads default_mappings_path w).2 = inr mods /\
    (bind_RANK_EMOJI json_loads default_mappings_path w).2 = inr emoji /\
    (bind_USER_NEWBEST_LIMIT json_loads default_mappings_path w).2 = inr newbest /\
    (bind_ROLE_TRESHOLDS json_loads default_mappings_path w).2 = inr thresholds /\
    cfg = {| DISCORD_TOKEN := tok; SERVER_ID := sid; BOT_CHANNEL_ID := cid;
             API_CLIENT_ID := os_getenv w "API_CLIENT_ID";
             API_CLIENT_SECRET := os_getenv w "API_CLIENT_SECRET";
             DATABASE_URL := bind_DATABASE_URL w;
             POST_REQUEST_URL := os_getenv w "POST_REQUEST_URL";
             POST_REQUEST_TOKEN := os_getenv w "POST_REQUEST_TOKEN";
             ROLES := roles; REV_ROLES := rev_roles roles;
             ROLES_VALUE := roles_value roles;
             PERVERT_ROLE := pervert; BOT_SELF_ID := self;
             BOTSPAM_CHANNEL_ID := botspam; MODS_DICT := mods;
             RANK_EMOJI := emoji; USER_NEWBEST_LIMIT := newbest;
             ROLE_TRESHOLDS := thresholds |}.
Proof.
  unfold config_module. intros H.
  apply bind_inr_inv in H as (? & [[tok sid] cid] & ? & -> & H & _).
  repeat (apply bind_inr_inv in H as (? & ? & ? & -> & H & _)).
  injection H as _ <-.
  by repeat eexists.
Qed.



(** ** The mappings file *)

Local Abbreviation mappings_path := (mappings_path default_mappings_path).
Local Abbreviation load_file := (_load_from_mappings_file json_loads default_mappings_path).
Local Abbreviation read_sources := (read_sources json_loads default_mappings_path).
Local Abbreviation bind_mapping := (bind_mapping json_loads default_mappings_path).
Local Abbreviation coerce_mapping := (coerce_mapping json_loads).

Lemma load_file_missing w key :
  files w !! mappings_path w = None ->
  load_file w key = ([PathExists (mappings_path w)], inr PNone).
Proof.
  intros H. unfold _load_from_mappings_file, os_path_exists. rewrite H.
  rewrite bool_decide_eq_false_2 by (by intros [? ?]). reflexivity.
Qed.

Lemma load_file_unreadable w key e :
  files w !! mappings_path w = Some (Unreadable e) ->
  load_file w key =
    ([PathExists (mappings_path w); OpenRead (mappings_path w);
      LogInfo (failed_to_read (mappings_path w) e)], inr PNone).
Proof.
  intros H. unfold _load_from_mappings_file, os_path_exists, open_json_load. rewrite H.
  rewrite bool_decide_eq_true_2 by (by eexists). reflexivity.
Qed.

Lemma load_file_malformed w key text e :
  files w !! mappings_path w = Some (FileText text) ->
  json_loads text = inl e ->
  load_file w key =
    ([PathExists (mappings_path w); OpenRead (mappings_path w);
      LogInfo (failed_to_read (mappings_path w) e)], inr PNone).
Proof.
  intros H He. unfold _load_from_mappings_file, os_path_exists, open_json_load.
  rewrite H, He. rewrite bool_decide_eq_true_2 by (by eexists). reflexivity.
Qed.

Lemma load_file_parsed w key text data :
  files w !! mappings_path w = Some (FileText text) ->
  json_loads text = inr data ->
  load_file w key =
    ([PathExists (mappings_path w); OpenRead (mappings_path w)], py_get data key).
Proof.
  intros H He. unfold _load_from_mappings_file, os_path_exists, open_json_load.
  rewrite H, He. rewrite bool_decide_eq_true_2 by (by eexists). reflexivity.
Qed.

(** ** Mapping-valued settings *)

Lemma read_sources_env w env_name file_key s :
  os_getenv w env_name = Some s -> s <> "" ->
  read_sources w env_name file_key = ([], inr (PStr s)).
Proof.
  intros Hs Hne. unfold read_sources. rewrite Hs. simpl.
  by destruct (String.eqb_spec s "").
Qed.

Lemma read_sources_unset w env_name file_key :
  unset w env_name = true ->
  read_sources w env_name file_key = load_file w file_key.
Proof. unfold unset, read_sources. by intros ->. Qed.

Lemma fmap_bind {A B C} (f : B -> C) (m : M A) (g : A -> M B) :
  f <$> (m ≫= g) = m ≫= (fun x => f <$> g x).
Proof.
  destruct m as [t [e | a]]; [reflexivity |].
  unfold fmap, M_fmap. rewrite !bind_ok.
  destruct (g a) as [t' [e | b]]; simpl; [reflexivity |].
  by rewrite !app_nil_r.
Qed.

Lemma bind_ext {A B} (m : M A) (f g : A -> M B) :
  (forall a, f a = g a) -> (m ≫= f) = (m ≫= g).
Proof. intros Hfg. destruct m as [t [e | a]]; [reflexivity |]. by rewrite !bind_ok, Hfg. Qed.

Lemma bind_mapping_eq k w :
  bind_mapping k w =
    read_sources w (mapping_env k) (mapping_name k) ≫= coerce_mapping k.
Proof.
  destruct k; unfold bind_mapping, coerce_mapping; simpl;
    try apply fmap_bind; reflexivity.
Qed.

(** Nothing is logged, and no file is touched, after a truthy raw value
    has been found. *)
Lemma coerce_mapping_truthy k raw :
  truthy raw = true -> (coerce_mapping k raw).1 = [].
Proof.
  intros Ht. unfold coerce_mapping, int_mapping_of, opaque_mapping_of.
  rewrite Ht. destruct (int_valued k).
  - destruct raw as [| | | | s | |]; simpl;
      try (destruct (json_loads s) as [? | obj]; simpl; [reflexivity |]);
      try reflexivity.
    + destruct (py_items obj) as [? | items]; simpl; [reflexivity |].
      by destruct (int_dict items).
    + by destruct (int_dict d).
  - destruct raw as [| | | | s | |]; simpl; try reflexivity.
    by destruct (json_loads s).
Qed.

Lemma coerce_mapping_falsy k raw :
  truthy raw = false ->
  coerce_mapping k raw = ([LogInfo (mapping_log k)], inr (PDict [])).
Proof.
  intros Ht. unfold coerce_mapping, int_mapping_of, opaque_mapping_of.
  rewrite Ht. by destruct k.
Qed.

Lemma config_module_mapping w t cfg k :
  config_module w = (t, inr cfg) -> (bind_mapping k w).2 = inr (mapping_field k cfg).
Proof.
  intros H.
  apply config_module_inv in H
    as (? & ? & ? & ? & ? & ? & ? & ? & ? & ? & ? & _ & H1 & _ & _ & _ & H2 & H3 & H4 & H5 & ->).
  destruct k; unfold bind_mapping; simpl; try done.
  - destruct (bind_ROLES _ _ _) as [? [|]]; simplify_eq/=; done.
  - destruct (bind_MODS_DICT _ _ _) as [? [|]]; simplify_eq/=; done.
  - destruct (bind_USER_NEWBEST_LIMIT _ _ _) as [? [|]]; simplify_eq/=; done.
  - destruct (bind_ROLE_TRESHOLDS _ _ _) as [? [|]]; simplify_eq/=; done.
Qed.

(** ** Decoding and coercion *)

Lemma coerce_mapping_undecodable k s e :
  s <> "" -> json_loads s = inl e ->
  coerce_mapping k (PStr s) = ([], inl (invalid_json (mapping_name k) e)).
Proof.
  intros Hne He. unfold coerce_mapping, int_mapping_of, opaque_mapping_of. simpl.
  destruct (String.eqb_spec s ""); [done |]. simpl. rewrite He.
  by destruct k.
Qed.

Lemma coerce_mapping_int k raw obj :
  int_valued k = true -> truthy raw = true -> decodes_to json_loads raw obj ->
  coerce_mapping k raw =
    ([], match py_items obj with
         | inl e => inl (invalid_json (mapping_name k) e)
         | inr items =>
             match int_dict items with
             | inl e => inl (invalid_json (mapping_name k) e)
             | inr m => inr (py_of_int_dict m)
             end
         end).
Proof.
  intros Hk Ht Hd. unfold coerce_mapping, int_mapping_of. rewrite Hk, Ht.
  assert (decode_raw json_loads raw = mret obj) as ->.
  { destruct raw; simpl in Hd; subst; try reflexivity. simpl. by rewrite Hd. }
  rewrite bind_ret.
  destruct (py_items obj) as [e | items]; [reflexivity |].
  rewrite bind_lift_inr. by destruct (int_dict items).
Qed.

Lemma coerce_mapping_opaque k raw obj :
  int_valued k = false -> truthy raw = true -> decodes_to json_loads raw obj ->
  coerce_mapping k raw = ([], inr obj).
Proof.
  intros Hk Ht Hd. unfold coerce_mapping, opaque_mapping_of. rewrite Hk, Ht.
  destruct raw; simpl in Hd; subst; try reflexivity. simpl. by rewrite Hd.
Qed.

(** One value that [int] rejects makes the whole comprehension fail. *)
Lemma int_dict_from_fails items :
  forall acc key v e0,
    (key, v) ∈ items -> py_int v = inl e0 ->
    exists e, int_dict_from acc items = inl e.
Proof.
  induction items as [| [k' v'] items IH]; intros acc key v e0 Hin Hv.
  - by apply elem_of_nil in Hin.
  - cbn [int_dict_from]. destruct (py_int v') as [e | z] eqn:Hv'; [by eexists |].
    apply elem_of_cons in Hin as [[= -> ->] | Hin]; [congruence |].
    by eapply IH.
Qed.

Lemma bind_mapping_found k w t raw :
  read_sources w (mapping_env k) (mapping_name k) = (t, inr raw) ->
  truthy raw = true ->
  bind_mapping k w = (t, (coerce_mapping k raw).2).
Proof.
  intros Hread Ht. rewrite bind_mapping_eq, Hread, bind_ok.
  by rewrite (coerce_mapping_truthy _ _ Ht), app_nil_r.
Qed.

Lemma bind_mapping_value k w t m :
  bind_mapping k w = (t, inr m) ->
  forall t' cfg, config_module w = (t', inr cfg) -> mapping_field k cfg = m.
Proof.
  intros Hb t' cfg Hcfg. apply (config_module_mapping _ _ _ k) in Hcfg.
  rewrite Hb in Hcfg. by injection Hcfg.
Qed.

Lemma bind_mapping_fatal k w t e :
  bind_mapping k w = (t, inl e) -> forall t' cfg, config_module w <> (t', inr cfg).
Proof.
  intros Hb t' cfg Hcfg. apply (config_module_mapping _ _ _ k) in Hcfg.
  by rewrite Hb in Hcfg.
Qed.

(** C1. For each of the five settings served by both sources: when the
    environment variable holds a (non-empty) value, the lookup returns that
    text without touching the file system, and the setting is what the
    decoding of that text gives, whatever the files are; when the
    environment variable is absent (or empty) and the mappings file holds a
    valid value under the key of the setting, the setting is that value
    after coercion. *)
Theorem source_precedence (k : mapping_key) w :
  (forall s, os_getenv w (mapping_env k) = Some s -> s <> "" ->
     read_sources w (mapping_env k) (mapping_name k) = ([], inr (PStr s)) /\
     bind_mapping k w = ([], (coerce_mapping k (PStr s)).2) /\
     (forall fs, bind_mapping k (World (environ w) fs) = bind_mapping k w) /\
     (forall obj, json_loads s = inr obj -> int_valued k = false ->
        bind_mapping k w = ([], inr obj)) /\
     (forall d m, json_loads s = inr (PDict d) -> int_valued k = true ->
        int_dict d = inr m -> bind_mapping k w = ([], inr (py_of_int_dict m))) /\
     (forall t cfg, config_module w = (t, inr cfg) ->
        (coerce_mapping k (PStr s)).2 = inr (mapping_field k cfg))) /\
  (forall text d v m,
     os_getenv w (mapping_env k) = None \/ os_getenv w (mapping_env k) = Some "" ->
     files w !! mappings_path w = Some (FileText text) ->
     json_loads text = inr (PDict d) ->
     dict_get (mapping_name k) d = Some v ->
     truthy v = true ->
     (coerce_mapping k v).2 = inr m ->
     bind_mapping k w = ([PathExists (mappings_path w); OpenRead (mappings_path w)], inr m) /\
     forall t cfg, config_module w = (t, inr cfg) -> mapping_field k cfg = m).
Proof.
  split.
  - intros s Hs Hne.
    assert (forall w', os_getenv w' (mapping_env k) = Some s ->
              bind_mapping k w' = ([], (coerce_mapping k (PStr s)).2)) as Hany.
    { intros w' Hs'. rewrite bind_mapping_eq, (read_sources_env _ _ _ _ Hs' Hne), bind_ok.
      rewrite coerce_mapping_truthy; [done |]. simpl. by destruct (String.eqb_spec s ""). }
    assert (truthy (PStr s) = true) as Ht
      by (simpl; by destruct (String.eqb_spec s "")).
    split; [by apply read_sources_env |]. split; [by apply Hany |].
    split; [intros fs; rewrite (Hany w Hs); by apply Hany |]. split; [| split].
    + intros obj Hobj Hk. rewrite (Hany w Hs).
      by rewrite (coerce_mapping_opaque k (PStr s) obj Hk Ht Hobj).
    + intros d m Hobj Hk Hm. rewrite (Hany w Hs).
      rewrite (coerce_mapping_int k (PStr s) (PDict d) Hk Ht Hobj). simpl. by rewrite Hm.
    + intros t cfg Hcfg. apply (config_module_mapping _ _ _ k) in Hcfg.
      by rewrite (Hany w Hs) in Hcfg.
  - intros text d v m Habs%unset_true Hfile Hparse Hget Htruthy Hvalid.
    assert (bind_mapping k w
              = ([PathExists (mappings_path w); OpenRead (mappings_path w)], inr m)) as Hb.
    { rewrite bind_mapping_eq, (read_sources_unset _ _ _ Habs).
      rewrite (load_file_parsed _ _ _ _ Hfile Hparse). unfold py_get. rewrite Hget.
      rewrite bind_ok. cbn [default from_option id].
      by rewrite (coerce_mapping_truthy _ _ Htruthy), Hvalid. }
    split; [done | by eapply bind_mapping_value].
Qed.

Lemma bind_mapping_env k w s :
  os_getenv w (mapping_env k) = Some s -> s <> "" ->
  bind_mapping k w = ([], (coerce_mapping k (PStr s)).2).
Proof.
  intros Hs Hne. apply bind_mapping_found; [by apply read_sources_env |].
  simpl. by destruct (String.eqb_spec s "").
Qed.

Lemma bind_mapping_nothing k w t v :
  unset w (mapping_env k) = true ->
  load_file w (mapping_name k) = (t, inr v) -> truthy v = false ->
  bind_mapping k w = (t ++ [LogInfo (mapping_log k)], inr (PDict [])).
Proof.
  intros Habs Hload Hv.
  by rewrite bind_mapping_eq, (read_sources_unset _ _ _ Habs), Hload, bind_ok,
    (coerce_mapping_falsy _ _ Hv).
Qed.

(** ** Results without their traces *)

Lemma bind_result {A B} (m : M A) (f : A -> M B) :
  (m ≫= f).2 = match m.2 with inl e => inl e | inr a => (f a).2 end.
Proof. destruct m as [t [e | a]]; [reflexivity |]. by rewrite bind_ok. Qed.

Lemma bind_result_ext {A B} (m m' : M A) (f f' : A -> M B) :
  m.2 = m'.2 -> (forall a, (f a).2 = (f' a).2) -> (m ≫= f).2 = (m' ≫= f').2.
Proof.
  intros Hm Hf. rewrite !bind_result, Hm. destruct (m'.2); [reflexivity | apply Hf].
Qed.

Lemma fmap_result {A B} (g : A -> B) (m m' : M A) :
  m.2 = m'.2 -> (g <$> m).2 = (g <$> m').2.
Proof. intros Hm. by apply bind_result_ext. Qed.

(** Two worlds with the same environment, in which the mappings file
    yields nothing: every block ends the same way. *)
Section SameResults.
Variables w w' : world.
Hypothesis Henv : environ w' = environ w.
Hypothesis Hnothing : forall key, (load_file w key).2 = inr PNone.
Hypothesis Hnothing' : forall key, (load_file w' key).2 = inr PNone.

Lemma read_sources_same env_name file_key :
  (read_sources w' env_name file_key).2 = (read_sources w env_name file_key).2.
Proof.
  unfold read_sources, os_getenv. rewrite Henv.
  destruct (truthy (py_of (environ w !! env_name))); simpl; [reflexivity |].
  by rewrite Hnothing, Hnothing'.
Qed.

Lemma int_mapping_same env_name file_key log_msg :
  (int_mapping json_loads default_mappings_path w' env_name file_key log_msg).2 =
  (int_mapping json_loads default_mappings_path w env_name file_key log_msg).2.
Proof. apply bind_result_ext; [apply read_sources_same | done]. Qed.

Lemma opaque_mapping_same env_name file_key log_msg :
  (opaque_mapping json_loads default_mappings_path w' env_name file_key log_msg).2 =
  (opaque_mapping json_loads default_mappings_path w env_name file_key log_msg).2.
Proof. apply bind_result_ext; [apply read_sources_same | done]. Qed.

Lemma bind_mapping_same k : (bind_mapping k w').2 = (bind_mapping k w).2.
Proof.
  destruct k; unfold bind_mapping;
    try apply fmap_result; first [apply int_mapping_same | apply opaque_mapping_same].
Qed.

Lemma config_module_same : (config_module w').2 = (config_module w).2.
Proof.
  unfold config_module.
  apply bind_result_ext.
  { unfold discord_configuration, required, os_getenv. by rewrite Henv. }
  intros [[tok sid] cid].
  unfold bind_DATABASE_URL, os_getenv. rewrite Henv.
  apply bind_result_ext; [apply int_mapping_same | intros roles].
  apply bind_result_ext.
  { unfold bind_PERVERT_ROLE, optional_id, os_getenv. by rewrite Henv. }
  intros pervert. apply bind_result_ext.
  { unfold bind_BOT_SELF_ID, optional_id, os_getenv. by rewrite Henv. }
  intros self. apply bind_result_ext.
  { unfold bind_BOTSPAM_CHANNEL_ID, optional_id, os_getenv. by rewrite Henv. }
  intros botspam.
  apply bind_result_ext; [apply int_mapping_same | intros mods].
  apply bind_result_ext; [apply opaque_mapping_same | intros emoji].
  apply bind_result_ext; [apply int_mapping_same | intros newbest].
  apply bind_result_ext; [apply int_mapping_same | intros thresholds].
  reflexivity.
Qed.
End SameResults.

Lemma load_file_without_files w key :
  load_file (without_files w) key
    = ([PathExists (mappings_path w)], inr PNone).
Proof. by rewrite load_file_missing. Qed.

(** C7. When the mappings file does not exist, a lookup returns [None]
    and nothing is raised.  When it exists and its text is not JSON, every
    lookup returns [None] after one diagnostic log record, nothing is
    raised, and every mapping setting, and the import as a whole, ends as it
    would without any file: a setting given in the environment is decoded
    from the environment, the others take their empty default. *)
Theorem mappings_file_soft_failure w :
  (files w !! mappings_path w = None ->
     forall key, load_file w key = ([PathExists (mappings_path w)], inr PNone)) /\
  (forall text e,
     files w !! mappings_path w = Some (FileText text) -> json_loads text = inl e ->
     (forall key,
        load_file w key =
          ([PathExists (mappings_path w); OpenRead (mappings_path w);
            LogInfo (failed_to_read (mappings_path w) e)], inr PNone)) /\
     (forall k, (bind_mapping k w).2 = (bind_mapping k (without_files w)).2) /\
     (forall k,
        os_getenv w (mapping_env k) = None \/ os_getenv w (mapping_env k) = Some "" ->
        (bind_mapping k w).2 = inr (PDict [])) /\
     (forall k s, os_getenv w (mapping_env k) = Some s -> s <> "" ->
        bind_mapping k w = ([], (coerce_mapping k (PStr s)).2)) /\
     (config_module w).2 = (config_module (without_files w)).2).
Proof.
  split; [intros H key; by apply load_file_missing |].
  intros text e Hfile Hbad.
  pose proof (fun key => load_file_malformed w key text e Hfile Hbad) as Hload.
  assert (forall key, (load_file w key).2 = inr PNone) as Hw
    by (intros key; by rewrite Hload).
  assert (forall key, (load_file (without_files w) key).2 = inr PNone) as Hw'
    by (intros key; by rewrite load_file_without_files).
  split; [exact Hload |]. split; [| split; [| split]].
  - intros k. symmetry. by apply bind_mapping_same.
  - intros k Habs%unset_true.
    by rewrite (bind_mapping_nothing k w _ PNone Habs (Hload _)).
  - intros k s. apply bind_mapping_env.
  - symmetry. by apply config_module_same.
Qed.

(** C9. For each mapping setting: an environment variable set to the
    empty string falls through to the mappings file; and when the
    environment gives nothing, a falsy value found in the file (an empty
    object under the key, for one) is not decoded: the setting takes its
    empty default after one informational log record. *)
Theorem absence_is_falsiness (k : mapping_key) w :
  (os_getenv w (mapping_env k) = Some "" ->
     read_sources w (mapping_env k) (mapping_name k) = load_file w (mapping_name k)) /\
  (forall t v,
     os_getenv w (mapping_env k) = None \/ os_getenv w (mapping_env k) = Some "" ->
     load_file w (mapping_name k) = (t, inr v) -> truthy v = false ->
     bind_mapping k w = (t ++ [LogInfo (mapping_log k)], inr (PDict [])) /\
     forall t' cfg, config_module w = (t', inr cfg) -> mapping_field k cfg = PDict []) /\
  (forall text d,
     os_getenv w (mapping_env k) = None \/ os_getenv w (mapping_env k) = Some "" ->
     files w !! mappings_path w = Some (FileText text) ->
     json_loads text = inr (PDict d) ->
     dict_get (mapping_name k) d = Some (PDict []) ->
     bind_mapping k w =
       ([PathExists (mappings_path w); OpenRead (mappings_path w);
         LogInfo (mapping_log k)], inr (PDict []))).
Proof.
  split; [| split].
  - intros Hs. apply read_sources_unset, unset_true. by right.
  - intros t v Habs%unset_true Hload Hv.
    pose proof (bind_mapping_nothing k w t v Habs Hload Hv) as Hb.
    split; [done | by eapply bind_mapping_value].
  - intros text d Habs%unset_true Hfile Hparse Hget.
    rewrite (bind_mapping_nothing k w
               [PathExists (mappings_path w); OpenRead (mappings_path w)]
               (PDict []) Habs); [done | | done].
    rewrite (load_file_parsed _ _ _ _ Hfile Hparse). unfold py_get. by rewrite Hget.
Qed.

(** C6. A mappings file whose ROLES object holds the string "7" under
    "A", with no ROLES_JSON in the environment, gives ROLES = {"A": 7}.
    More generally, for the integer-valued settings, whichever source
    produced the raw value and whether it is JSON text or an object, the
    setting is the object's items with [int] applied to every value. *)
Theorem string_encoded_integers_coerced w :
  (forall text,
     os_getenv w "ROLES_JSON" = None \/ os_getenv w "ROLES_JSON" = Some "" ->
     files w !! mappings_path w = Some (FileText text) ->
     json_loads text = inr (PDict [("ROLES", PDict [("A", PStr "7")])]) ->
     bind_ROLES json_loads default_mappings_path w =
       ([PathExists (mappings_path w); OpenRead (mappings_path w)], inr [("A", 7)]) /\
     forall t cfg, config_module w = (t, inr cfg) -> ROLES cfg = [("A", 7)]) /\
  (forall k t raw d,
     int_valued k = true ->
     read_sources w (mapping_env k) (mapping_name k) = (t, inr raw) ->
     truthy raw = true ->
     decodes_to json_loads raw (PDict d) ->
     bind_mapping k w =
       (t, match int_dict d with
           | inl e => inl (invalid_json (mapping_name k) e)
           | inr m => inr (py_of_int_dict m)
           end)).
Proof.
  split.
  - intros text Habs%unset_true Hfile Hparse.
    assert (bind_ROLES json_loads default_mappings_path w =
              ([PathExists (mappings_path w); OpenRead (mappings_path w)], inr [("A", 7)]))
      as Hb.
    { unfold bind_ROLES, int_mapping.
      rewrite (read_sources_unset _ _ _ Habs), (load_file_parsed _ _ _ _ Hfile Hparse).
      reflexivity. }
    split; [done |]. intros t cfg Hcfg.
    apply config_module_inv in Hcfg
      as (? & ? & ? & ? & ? & ? & ? & ? & ? & ? & ? & _ & Hroles & _ & _ & _ & _ & _ & _ & _ & ->).
    rewrite Hb in Hroles. by injection Hroles.
  - intros k t raw d Hk Hread Ht Hd.
    rewrite (bind_mapping_found _ _ _ _ Hread Ht).
    by rewrite (coerce_mapping_int _ _ _ Hk Ht Hd).
Qed.

(** C8, amended.  Once the lookup has returned a raw value for a mapping
    setting, from either source: a non-empty string that is not JSON
    raises [ValueError("Invalid <KEY> JSON provided (env or file): ...")],
    for all five settings; for the four integer-valued settings an object
    with a value that [int] rejects raises the same error; in both cases
    the import produces no configuration.  RANK_EMOJI keeps the decoded
    object as it is. *)
Theorem invalid_mapping_value_is_fatal (k : mapping_key) w t raw :
  read_sources w (mapping_env k) (mapping_name k) = (t, inr raw) ->
  (forall s e, raw = PStr s -> s <> "" -> json_loads s = inl e ->
     bind_mapping k w = (t, inl (invalid_json (mapping_name k) e)) /\
     forall t' cfg, config_module w <> (t', inr cfg)) /\
  (forall d key v e0,
     int_valued k = true -> truthy raw = true ->
     decodes_to json_loads raw (PDict d) -> (key, v) ∈ d -> py_int v = inl e0 ->
     exists e,
       bind_mapping k w = (t, inl (invalid_json (mapping_name k) e)) /\
       forall t' cfg, config_module w <> (t', inr cfg)) /\
  (forall obj,
     int_valued k = false -> truthy raw = true -> decodes_to json_loads raw obj ->
     bind_mapping k w = (t, inr obj)).
Proof.
  intros Hread. split; [| split].
  - intros s e -> Hne He.
    assert (bind_mapping k w = (t, inl (invalid_json (mapping_name k) e))) as Hb.
    { rewrite (bind_mapping_found _ _ _ _ Hread).
      - by rewrite (coerce_mapping_undecodable _ _ _ Hne He).
      - simpl. by destruct (String.eqb_spec s ""). }
    split; [done | by eapply bind_mapping_fatal].
  - intros d key v e0 Hk Ht Hd Hin Hv.
    destruct (int_dict_from_fails d [] key v e0 Hin Hv) as [e He].
    assert (bind_mapping k w = (t, inl (invalid_json (mapping_name k) e))) as Hb.
    { rewrite (bind_mapping_found _ _ _ _ Hread Ht).
      rewrite (coerce_mapping_int _ _ _ Hk Ht Hd). simpl.
      unfold int_dict. by rewrite He. }
    exists e. split; [done | by eapply bind_mapping_fatal].
  - intros obj Hk Ht Hd.
    rewrite (bind_mapping_found _ _ _ _ Hread Ht).
    by rewrite (coerce_mapping_opaque _ _ _ Hk Ht Hd).
Qed.

(** ** Derived structures *)

Lemma int_mapping_of_NoDup name log_msg raw t d :
  int_mapping_of json_loads name log_msg raw = (t, inr d) -> NoDup (dict_keys d).
Proof.
  unfold int_mapping_of. destruct (truthy raw).
  - assert (exists r, decode_raw json_loads raw = lift r) as [r ->]
      by (destruct raw; by eexists).
    destruct r as [e | obj]; [done |]. rewrite bind_lift_inr.
    destruct (py_items obj) as [e | items]; [done |]. rewrite bind_lift_inr.
    destruct (int_dict items) as [e | m] eqn:Hm; [done |].
    intros [= _ <-]. eapply int_dict_from_NoDup; [| exact Hm]. apply NoDup_nil_2.
  - intros [= _ <-]. apply NoDup_nil_2.
Qed.

Lemma bind_ROLES_NoDup w roles :
  (bind_ROLES json_loads default_mappings_path w).2 = inr roles -> NoDup (dict_keys roles).
Proof.
  unfold bind_ROLES, int_mapping. rewrite bind_result.
  destruct (read_sources w "ROLES_JSON" "ROLES").2 as [e | raw]; [done |].
  destruct (int_mapping_of _ _ _ raw) as [t r] eqn:Hr. simpl. intros ->.
  by eapply int_mapping_of_NoDup.
Qed.

(** C5. In every configuration produced by the import, REV_ROLES and
    ROLES_VALUE are [rev_roles] and [roles_value] of ROLES, and ROLES_VALUE
    pairs each name with its position.  For ROLES = {"A": 1, "B": 2} they
    are {1: "A", 2: "B"} and {"A": 0, "B": 1}; for the empty ROLES both are
    empty; and looking an id up in the reverse mapping gives the name of
    the last entry of ROLES with that id. *)
Theorem derived_role_structures :
  (forall w t cfg, config_module w = (t, inr cfg) ->
     REV_ROLES cfg = rev_roles (ROLES cfg) /\
     ROLES_VALUE cfg = roles_value (ROLES cfg) /\
     ROLES_VALUE cfg = positions (ROLES cfg)) /\
  rev_roles [("A", 1); ("B", 2)] = [(1, "A"); (2, "B")] /\
  roles_value [("A", 1); ("B", 2)] = [("A", 0); ("B", 1)] /\
  rev_roles [] = [] /\
  roles_value [] = [] /\
  rev_roles [("A", 1); ("B", 2); ("C", 1)] = [(1, "C"); (2, "B")] /\
  (forall roles id, dict_get id (rev_roles roles) = last_name_of id roles).
Proof.
  split; [| by repeat split; try apply rev_roles_last].
  intros w t cfg Hcfg.
  apply config_module_inv in Hcfg
    as (? & ? & ? & roles & ? & ? & ? & ? & ? & ? & ? & _ & Hroles & _ & _ & _ & _ & _ & _ & _ & ->).
  simpl. split; [done |]. split; [done |].
  apply roles_value_positions. by eapply bind_ROLES_NoDup.
Qed.

(** ** Database URL *)

Lemma os_getenv_unset_db w name :
  bool_decide (name ∈ db_vars) = false ->
  os_getenv (unset_db w) name = os_getenv w name.
Proof.
  intros Hn%bool_decide_eq_false. unfold os_getenv, unset_db, db_vars in *. simpl.
  rewrite !lookup_delete_ne; [done | ..]; intros <-; apply Hn; set_solver.
Qed.

Lemma os_getenv_unset_db_var w name :
  name ∈ db_vars -> os_getenv (unset_db w) name = None.
Proof.
  unfold os_getenv, unset_db, db_vars. simpl. intros Hin.
  repeat (apply elem_of_cons in Hin as [-> | Hin];
          [repeat first [by rewrite lookup_delete_eq | rewrite lookup_delete_ne by done] |]).
  by apply elem_of_nil in Hin.
Qed.

Lemma bind_DATABASE_URL_nonempty w : bind_DATABASE_URL w <> "".
Proof.
  unfold bind_DATABASE_URL. destruct (os_getenv w "DATABASE_URL") as [s |]; simpl.
  - destruct (String.eqb_spec s ""); simpl; [done | done].
  - done.
Qed.

Lemma load_file_unset_db w key : load_file (unset_db w) key = load_file w key.
Proof.
  unfold _load_from_mappings_file, os_path_exists, open_json_load, mappings_path.
  by rewrite os_getenv_unset_db.
Qed.

Lemma read_sources_unset_db w env_name file_key :
  bool_decide (env_name ∈ db_vars) = false ->
  read_sources (unset_db w) env_name file_key = read_sources w env_name file_key.
Proof.
  intros Hn. unfold read_sources. by rewrite load_file_unset_db, os_getenv_unset_db.
Qed.

Lemma optional_id_unset_db w name err_msg log_msg :
  bool_decide (name ∈ db_vars) = false ->
  optional_id (unset_db w) name err_msg log_msg = optional_id w name err_msg log_msg.
Proof. intros Hn. unfold optional_id. by rewrite os_getenv_unset_db. Qed.

Lemma config_module_unset_db w :
  config_module (unset_db w) =
    with_DATABASE_URL "postgresql://None:None@db:5432/None" <$> config_module w.
Proof.
  assert (bind_DATABASE_URL (unset_db w) = "postgresql://None:None@db:5432/None") as Hurl.
  { unfold bind_DATABASE_URL. rewrite !os_getenv_unset_db_var; [done | ..]; set_solver. }
  unfold config_module. rewrite Hurl.
  replace (discord_configuration (unset_db w)) with (discord_configuration w)
    by (unfold discord_configuration, required; by rewrite !os_getenv_unset_db).
  unfold bind_ROLES, bind_MODS_DICT, bind_RANK_EMOJI,
    bind_USER_NEWBEST_LIMIT, bind_ROLE_TRESHOLDS, bind_PERVERT_ROLE, bind_BOT_SELF_ID,
    bind_BOTSPAM_CHANNEL_ID, int_mapping, opaque_mapping.
  rewrite !read_sources_unset_db, !optional_id_unset_db, !os_getenv_unset_db by done.
  rewrite fmap_bind. apply bind_ext. intros [[tok sid] cid].
  repeat (rewrite fmap_bind; apply bind_ext; intros ?).
  reflexivity.
Qed.

(** C10. DATABASE_URL is never the empty string.  A non-empty
    DATABASE_URL in the environment is taken as it is; otherwise the URL is
    "postgresql://<user>:<password>@db:5432/<db>" built from POSTGRES_USER,
    POSTGRES_PASSWORD and POSTGRES_DB, an unset part being written "None".
    The block raises nothing: an import that succeeds still succeeds, with
    the same trace and the same other settings, when the four variables are
    removed, and DATABASE_URL is then "postgresql://None:None@db:5432/None". *)
Theorem database_url_never_fatal w :
  bind_DATABASE_URL w <> "" /\
  (forall s, os_getenv w "DATABASE_URL" = Some s -> s <> "" -> bind_DATABASE_URL w = s) /\
  (os_getenv w "DATABASE_URL" = None \/ os_getenv w "DATABASE_URL" = Some "" ->
     bind_DATABASE_URL w =
       "postgresql://" +:+ py_format (os_getenv w "POSTGRES_USER") +:+ ":"
         +:+ py_format (os_getenv w "POSTGRES_PASSWORD") +:+ "@db:5432/"
         +:+ py_format (os_getenv w "POSTGRES_DB")) /\
  (os_getenv w "DATABASE_URL" = None -> os_getenv w "POSTGRES_USER" = None ->
   os_getenv w "POSTGRES_PASSWORD" = None -> os_getenv w "POSTGRES_DB" = None ->
     bind_DATABASE_URL w = "postgresql://None:None@db:5432/None") /\
  (forall t cfg, config_module w = (t, inr cfg) ->
     DATABASE_URL cfg = bind_DATABASE_URL w /\
     config_module (unset_db w) =
       (t, inr (with_DATABASE_URL "postgresql://None:None@db:5432/None" cfg))).
Proof.
  split; [apply bind_DATABASE_URL_nonempty |]. split; [| split; [| split]].
  - intros s Hs Hne. unfold bind_DATABASE_URL. rewrite Hs. simpl.
    by destruct (String.eqb_spec s "").
  - intros Habs%unset_true. unfold unset in Habs. unfold bind_DATABASE_URL.
    by destruct (truthy _).
  - intros H1 H2 H3 H4. unfold bind_DATABASE_URL. by rewrite H1, H2, H3, H4.
  - intros t cfg Hcfg. split.
    + apply config_module_inv in Hcfg
        as (? & ? & ? & ? & ? & ? & ? & ? & ? & ? & ? & _ & _ & _ & _ & _ & _ & _ & _ & _ & ->).
      done.
    + rewrite config_module_unset_db, Hcfg. unfold fmap, M_fmap.
      by rewrite bind_ok, app_nil_r.
Qed.

(** ** Optional scalars *)

Lemma optional_id_unset w name err_msg log_msg :
  unset w name = true ->
  optional_id w name err_msg log_msg = ([LogInfo log_msg], inr None).
Proof. unfold unset, optional_id. by destruct (truthy _). Qed.

Lemma optional_id_set w name err_msg log_msg s :
  os_getenv w name = Some s -> s <> "" ->
  optional_id w name err_msg log_msg =
    match int_of_string s with
    | Some z => ([], inr (Some z))
    | None => ([], inl (Exn ValueError err_msg))
    end.
Proof.
  intros Hs Hne. unfold optional_id. rewrite Hs. simpl.
  destruct (String.eqb_spec s ""); [done |]. simpl.
  by destruct (int_of_string s).
Qed.

Lemma config_module_optional w t cfg k :
  config_module w = (t, inr cfg) -> (bind_optional k w).2 = inr (optional_field k cfg).
Proof.
  intros H.
  apply config_module_inv in H
    as (? & ? & ? & ? & ? & ? & ? & ? & ? & ? & ? & _ & _ & H1 & H2 & H3 & _ & _ & _ & _ & ->).
  by destruct k.
Qed.

(** C4. For PERVERT_ROLE, BOT_SELF_ID and BOTSPAM_CHANNEL_ID: when the
    environment value is absent (or empty) the setting resolves to [None],
    the only effect is one informational log record and nothing is raised;
    when a value is present, an integer text resolves to that integer and
    any other text raises a [ValueError] ("... must be an integer ..."),
    so that the import produces no configuration. *)
Theorem optional_scalar_policy (k : optional_key) w :
  (os_getenv w (optional_name k) = None \/ os_getenv w (optional_name k) = Some "" ->
     bind_optional k w = ([LogInfo (optional_log k)], inr None) /\
     forall t cfg, config_module w = (t, inr cfg) -> optional_field k cfg = None) /\
  (forall s, os_getenv w (optional_name k) = Some s -> s <> "" ->
     match int_of_string s with
     | Some z => bind_optional k w = ([], inr (Some z))
     | None =>
         (exists msg, bind_optional k w = ([], inl (Exn ValueError msg)) /\
                      str_contains (optional_name k) msg = true) /\
         forall t cfg, config_module w <> (t, inr cfg)
     end).
Proof.
  split.
  - intros Habs%unset_true.
    assert (bind_optional k w = ([LogInfo (optional_log k)], inr None)) as Hb
      by (destruct k; apply optional_id_unset, Habs).
    split; [done |]. intros t cfg Hcfg.
    apply (config_module_optional _ _ _ k) in Hcfg. rewrite Hb in Hcfg.
    by injection Hcfg.
  - intros s Hs Hne.
    assert (exists err, str_contains (optional_name k) err = true /\
              bind_optional k w = match int_of_string s with
                                  | Some z => ([], inr (Some z))
                                  | None => ([], inl (Exn ValueError err))
                                  end) as (err & Herr & Hb).
    { destruct k; eexists; (split; [| by apply optional_id_set]); reflexivity. }
    destruct (int_of_string s) as [z |]; [done |].
    split; [by exists err |]. intros t cfg Hcfg.
    apply (config_module_optional _ _ _ k) in Hcfg. by rewrite Hb in Hcfg.
Qed.

End Properties.

Lemma required_scalar_absent_is_fatal_witness :
  exists k,
    find (unset (world_of env_no_server [])) required_keys = Some k /\
    config_module RefJSON.loads sample_path (world_of env_no_server [])
      = ([], inl (Exn ValueError (required_msg k))) /\
    forall t cfg,
      config_module RefJSON.loads sample_path (world_of env_no_server []) <> (t, inr cfg).
Proof.
  apply (required_scalar_absent_is_fatal RefJSON.loads sample_path
           (world_of env_no_server []) "SERVER_ID").
  - repeat constructor.
  - right. reflexivity.
Defined.




Lemma optional_scalar_policy_witness :
  (bind_optional K_BOTSPAM_CHANNEL_ID (world_of env_optional [])
     = ([LogInfo "BOTSPAM_CHANNEL_ID not configured; BOTSPAM_CHANNEL_ID set to None"],
        inr None)) /\
  bind_optional K_BOT_SELF_ID (world_of env_optional []) = ([], inr (Some 42)) /\
  forall t cfg,
    config_module RefJSON.loads sample_path (world_of env_optional []) <> (t, inr cfg).
Proof.
  split; [| split].
  - refine (proj1 (proj1 (optional_scalar_policy RefJSON.loads sample_path
                            K_BOTSPAM_CHANNEL_ID (world_of env_optional [])) _)).
    left. reflexivity.
  - refine (proj2 (optional_scalar_policy RefJSON.loads sample_path
                     K_BOT_SELF_ID (world_of env_optional [])) "42" _ _);
      [reflexivity | discriminate].
  - refine (proj2 (proj2 (optional_scalar_policy RefJSON.loads sample_path
                     K_PERVERT_ROLE (world_of env_optional [])) "role" _ _));
      [reflexivity | discriminate].
Defined.

Lemma source_precedence_witness :
  bind_mapping RefJSON.loads sample_path K_ROLES (world_of env_roles fs_sample)
    = ([], inr (PDict [("B", PInt 2)])) /\
  bind_mapping RefJSON.loads sample_path K_ROLES (world_of env_minimal fs_sample)
    = ([PathExists sample_path; OpenRead sample_path],
       inr (PDict [("A", PInt 1); ("B", PInt 2); ("C", PInt 1)])).
Proof.
  split.
  - refine (proj1 (proj2 (proj1 (source_precedence RefJSON.loads sample_path K_ROLES
                                   (world_of env_roles fs_sample)) roles_env_text _ _)));
      [reflexivity | discriminate].
  - refine (proj1 (proj2 (source_precedence RefJSON.loads sample_path K_ROLES
                            (world_of env_minimal fs_sample))
              mappings_text
              [("ROLES", PDict [("A", PInt 1); ("B", PStr "2");
                                ("C", PFloat (S754_finite false 4503599627370496 (-52)))]);
               ("USER_NEWBEST_LIMIT", PDict []);
               ("RANK_EMOJI", PDict [("S", PStr ":s:")])]
              (PDict [("A", PInt 1); ("B", PStr "2");
                      ("C", PFloat (S754_finite false 4503599627370496 (-52)))])
              (PDict [("A", PInt 1); ("B", PInt 2); ("C", PInt 1)]) _ _ _ _ _ _));
      first [by left | reflexivity].
Defined.

Lemma derived_role_structures_witness :
  match sample_run with
  | (_, inr cfg) =>
      REV_ROLES cfg = rev_roles (ROLES cfg) /\
      ROLES_VALUE cfg = roles_value (ROLES cfg) /\
      ROLES_VALUE cfg = positions (ROLES cfg)
  | (_, inl _) => False
  end.
Proof.
  assert (config_module RefJSON.loads sample_path (world_of env_minimal fs_sample)
            = sample_run) as Hrun by (vm_compute; reflexivity).
  unfold sample_run in *.
  exact (proj1 (derived_role_structures RefJSON.loads sample_path) _ _ _ Hrun).
Defined.

Lemma string_encoded_integers_coerced_witness :
  bind_ROLES RefJSON.loads sample_path (world_of env_minimal fs_roles)
    = ([PathExists sample_path; OpenRead sample_path], inr [("A", 7)]) /\
  bind_mapping RefJSON.loads sample_path K_ROLES (world_of env_roles fs_sample)
    = ([], inr (PDict [("B", PInt 2)])).
Proof.
  split.
  - refine (proj1 (proj1 (string_encoded_integers_coerced RefJSON.loads sample_path
                            (world_of env_minimal fs_roles)) roles_file_text _ _ _));
      first [by left | reflexivity].
  - refine (proj2 (string_encoded_integers_coerced RefJSON.loads sample_path
                     (world_of env_roles fs_sample))
              K_ROLES [] (PStr roles_env_text) [("B", PInt 2)] _ _ _ _);
      reflexivity.
Defined.

Lemma mappings_file_soft_failure_witness :
  _load_from_mappings_file RefJSON.loads sample_path (world_of env_roles []) "ROLES"
    = ([PathExists sample_path], inr PNone) /\
  _load_from_mappings_file RefJSON.loads sample_path (world_of env_roles fs_malformed) "ROLES"
    = ([PathExists sample_path; OpenRead sample_path;
        LogInfo (failed_to_read sample_path RefJSON.decode_error)],
       inr PNone) /\
  (config_module RefJSON.loads sample_path (world_of env_roles fs_malformed)).2
    = (config_module RefJSON.loads sample_path
         (without_files (world_of env_roles fs_malformed))).2.
Proof.
  pose proof (proj2 (mappings_file_soft_failure RefJSON.loads sample_path
                       (world_of env_roles fs_malformed))
                "{'ROLES': " RefJSON.decode_error
                ltac:(reflexivity) ltac:(reflexivity)) as (Hload & _ & _ & _ & Hsame).
  split; [| split; [exact (Hload "ROLES") | exact Hsame]].
  refine (proj1 (mappings_file_soft_failure RefJSON.loads sample_path
                   (world_of env_roles [])) _ "ROLES").
  reflexivity.
Defined.

Lemma absence_is_falsiness_witness :
  read_sources RefJSON.loads sample_path (world_of env_roles fs_sample)
      "USER_NEWBEST_LIMIT_JSON" "USER_NEWBEST_LIMIT"
    = _load_from_mappings_file RefJSON.loads sample_path (world_of env_roles fs_sample)
        "USER_NEWBEST_LIMIT" /\
  bind_mapping RefJSON.loads sample_path K_USER_NEWBEST_LIMIT (world_of env_roles fs_sample)
    = ([PathExists sample_path; OpenRead sample_path;
        LogInfo "No USER_NEWBEST_LIMIT configured (no env and no mappings file)"],
       inr (PDict [])) /\
  bind_mapping RefJSON.loads sample_path K_MODS_DICT (world_of env_roles fs_sample)
    = ([PathExists sample_path; OpenRead sample_path;
        LogInfo "MODS_DICT not provided via env or mappings file; MODS_DICT set to empty mapping"],
       inr (PDict [])).
Proof.
  split; [| split].
  - refine (proj1 (absence_is_falsiness RefJSON.loads sample_path K_USER_NEWBEST_LIMIT
                     (world_of env_roles fs_sample)) _).
    reflexivity.
  - refine (proj2 (proj2 (absence_is_falsiness RefJSON.loads sample_path K_USER_NEWBEST_LIMIT
                            (world_of env_roles fs_sample)))
              mappings_text
              [("ROLES", PDict [("A", PInt 1); ("B", PStr "2");
                                ("C", PFloat (S754_finite false 4503599627370496 (-52)))]);
               ("USER_NEWBEST_LIMIT", PDict []);
               ("RANK_EMOJI", PDict [("S", PStr ":s:")])] _ _ _ _);
      first [by right | reflexivity].
  - refine (proj1 (proj1 (proj2 (absence_is_falsiness RefJSON.loads sample_path K_MODS_DICT
                                   (world_of env_roles fs_sample)))
              [PathExists sample_path; OpenRead sample_path] PNone _ _ _));
      first [by left | reflexivity].
Defined.

Lemma database_url_never_fatal_witness :
  match sample_run with
  | (t, inr cfg) =>
      DATABASE_URL cfg = bind_DATABASE_URL (world_of env_minimal fs_sample) /\
      config_module RefJSON.loads sample_path (unset_db (world_of env_minimal fs_sample))
        = (t, inr (with_DATABASE_URL "postgresql://None:None@db:5432/None" cfg))
  | (_, inl _) => False
  end /\
  bind_DATABASE_URL (world_of env_database []) = "postgres://example/db" /\
  bind_DATABASE_URL (world_of env_postgres []) = "postgresql://bot:None@db:5432/osu".
Proof.
  split; [| split].
  - assert (config_module RefJSON.loads sample_path (world_of env_minimal fs_sample)
              = sample_run) as Hrun by (vm_compute; reflexivity).
    unfold sample_run in *.
    exact (proj2 (proj2 (proj2 (proj2 (database_url_never_fatal RefJSON.loads sample_path
                                         (world_of env_minimal fs_sample))))) _ _ Hrun).
  - refine (proj1 (proj2 (database_url_never_fatal RefJSON.loads sample_path
                            (world_of env_database []))) "postgres://example/db" _ _);
      [reflexivity | discriminate].
  - refine (proj1 (proj2 (proj2 (database_url_never_fatal RefJSON.loads sample_path
                                   (world_of env_postgres [])))) _).
    right. reflexivity.
Defined.

Lemma invalid_mapping_value_is_fatal_witness :
  bind_mapping RefJSON.loads sample_path K_ROLES (world_of env_bad_json fs_sample)
    = ([], inl (invalid_json "ROLES" RefJSON.decode_error)) /\
  (exists e,
     bind_mapping RefJSON.loads sample_path K_MODS_DICT (world_of env_minimal fs_bad_values)
       = ([PathExists sample_path; OpenRead sample_path],
          inl (invalid_json "MODS_DICT" e)) /\
     forall t cfg,
       config_module RefJSON.loads sample_path (world_of env_minimal fs_bad_values)
         <> (t, inr cfg)) /\
  bind_mapping RefJSON.loads sample_path K_RANK_EMOJI (world_of env_emoji [])
    = ([], inr (PDict [("S", PStr "x")])).
Proof.
  split; [| split].
  - refine (proj1 (proj1 (invalid_mapping_value_is_fatal RefJSON.loads sample_path K_ROLES
                            (world_of env_bad_json fs_sample) [] (PStr "{bad") _)
                     "{bad" RefJSON.decode_error _ _ _));
      first [reflexivity | discriminate].
  - refine (proj1 (proj2 (invalid_mapping_value_is_fatal RefJSON.loads sample_path K_MODS_DICT
                            (world_of env_minimal fs_bad_values)
                            [PathExists sample_path; OpenRead sample_path]
                            (PDict [("HD", PInt 8); ("XX", PNone)]) _))
              [("HD", PInt 8); ("XX", PNone)] "XX" PNone
              (Exn TypeError (int_type_msg PNone)) _ _ _ _ _);
      first [reflexivity | repeat constructor].
  - refine (proj2 (proj2 (invalid_mapping_value_is_fatal RefJSON.loads sample_path K_RANK_EMOJI
                            (world_of env_emoji []) [] (PStr emoji_env_text) _))
              (PDict [("S", PStr "x")]) _ _ _);
      reflexivity.
Defined.

(** C8 as stated fails for RANK_EMOJI: an object whose values are not
    integers, found in the file or decoded from the environment, is kept as
    it is and the import succeeds. *)
Lemma opaque_values_are_not_coerced :
  (read_sources RefJSON.loads sample_path (world_of env_minimal fs_sample)
       "RANK_EMOJI_JSON" "RANK_EMOJI"
     = ([PathExists sample_path; OpenRead sample_path], inr (PDict [("S", PStr ":s:")])) /\
   py_int (PStr ":s:") = inl (Exn ValueError "invalid literal for int() with base 10: ':s:'") /\
   exists t cfg,
     config_module RefJSON.loads sample_path (world_of env_minimal fs_sample) = (t, inr cfg) /\
     RANK_EMOJI cfg = PDict [("S", PStr ":s:")]) /\
  (read_sources RefJSON.loads sample_path (world_of env_emoji [])
       "RANK_EMOJI_JSON" "RANK_EMOJI" = ([], inr (PStr emoji_env_text)) /\
   RefJSON.loads emoji_env_text = inr (PDict [("S", PStr "x")]) /\
   py_int (PStr "x") = inl (Exn ValueError "invalid literal for int() with base 10: 'x'") /\
   exists t cfg,
     config_module RefJSON.loads sample_path (world_of env_emoji []) = (t, inr cfg) /\
     RANK_EMOJI cfg = PDict [("S", PStr "x")]).
Proof.
  split; repeat split; try (vm_compute; reflexivity);
    (eexists _, _; split; vm_compute; reflexivity).
Qed.


(** * Further properties of the script *)

Ltac in_list := apply (bool_decide_unpack _); vm_compute; exact I.

Lemma bind_inl_inv {A B} (m : M A) (f : A -> M B) t (e : exn) :
  (m ≫= f) = (t, inl e) ->
  m = (t, inl e) \/
  exists t1 a t2, m = (t1, inr a) /\ f a = (t2, inl e) /\ t = t1 ++ t2.
Proof.
  destruct m as [t1 [e1 | a]]; [intros [= <- <-]; by left |].
  rewrite bind_ok. destruct (f a) as [t2 r] eqn:Hf. simpl.
  intros [= <- ->]. right. by exists t1, a, t2.
Qed.

Lemma bind_trace {A B} (m : M A) (f : A -> M B) :
  (m ≫= f).1 = m.1 ++ match m.2 with inl _ => [] | inr a => (f a).1 end.
Proof.
  destruct m as [t [e | a]]; [simpl; by rewrite app_nil_r | by rewrite bind_ok].
Qed.

Lemma probes_app t1 t2 : probes (t1 ++ t2) = probes t1 ++ probes t2.
Proof. apply omap_app. Qed.

Lemma opens_app t1 t2 : opens (t1 ++ t2) = opens t1 ++ opens t2.
Proof. apply omap_app. Qed.

Lemma logs_app t1 t2 : logs (t1 ++ t2) = logs t1 ++ logs t2.
Proof. apply omap_app. Qed.

Section Coverage.
Variable json_loads : string -> exn + pyval.
Variable default_mappings_path : string.

Local Abbreviation config_module := (config_module json_loads default_mappings_path).
Local Abbreviation mappings_path := (mappings_path default_mappings_path).
Local Abbreviation load_file := (_load_from_mappings_file json_loads default_mappings_path).
Local Abbreviation read_sources := (read_sources json_loads default_mappings_path).
Local Abbreviation bind_mapping := (bind_mapping json_loads default_mappings_path).
Local Abbreviation int_mapping := (int_mapping json_loads default_mappings_path).
Local Abbreviation opaque_mapping := (opaque_mapping json_loads default_mappings_path).
Local Abbreviation expected_error := (expected_error json_loads default_mappings_path).

(** ** Two worlds that the script cannot tell apart *)

Lemma load_file_congr w w' key :
  os_getenv w' "MAPPINGS_FILE" = os_getenv w "MAPPINGS_FILE" ->
  files w' !! mappings_path w = files w !! mappings_path w ->
  load_file w' key = load_file w key.
Proof.
  intros Henv Hfile.
  unfold _load_from_mappings_file, os_path_exists, open_json_load, mappings_path.
  unfold mappings_path in Hfile. by rewrite Henv, Hfile.
Qed.

Lemma read_sources_congr w w' env_name file_key :
  os_getenv w' env_name = os_getenv w env_name ->
  load_file w' file_key = load_file w file_key ->
  read_sources w' env_name file_key = read_sources w env_name file_key.
Proof. intros Henv Hload. unfold read_sources. by rewrite Henv, Hload. Qed.

Lemma optional_id_congr w w' name err_msg log_msg :
  os_getenv w' name = os_getenv w name ->
  optional_id w' name err_msg log_msg = optional_id w name err_msg log_msg.
Proof. intros Henv. unfold optional_id. by rewrite Henv. Qed.

Lemma config_module_congr w w' :
  (forall n, n ∈ core_vars -> os_getenv w' n = os_getenv w n) ->
  bind_DATABASE_URL w' = bind_DATABASE_URL w ->
  (forall k, load_file w' (mapping_name k) = load_file w (mapping_name k)) ->
  config_module w' = config_module w.
Proof.
  intros Henv Hurl Hload. unfold config_module. rewrite Hurl.
  replace (discord_configuration w') with (discord_configuration w)
    by (unfold discord_configuration, required; rewrite !Henv by in_list; done).
  unfold bind_ROLES, bind_MODS_DICT, bind_RANK_EMOJI, bind_USER_NEWBEST_LIMIT,
    bind_ROLE_TRESHOLDS, bind_PERVERT_ROLE, bind_BOT_SELF_ID, bind_BOTSPAM_CHANNEL_ID,
    int_mapping, opaque_mapping.
  rewrite (read_sources_congr w w' "ROLES_JSON" "ROLES")
    by first [apply Henv; in_list | apply (Hload K_ROLES)].
  rewrite (read_sources_congr w w' "MODS_DICT_JSON" "MODS_DICT")
    by first [apply Henv; in_list | apply (Hload K_MODS_DICT)].
  rewrite (read_sources_congr w w' "RANK_EMOJI_JSON" "RANK_EMOJI")
    by first [apply Henv; in_list | apply (Hload K_RANK_EMOJI)].
  rewrite (read_sources_congr w w' "USER_NEWBEST_LIMIT_JSON" "USER_NEWBEST_LIMIT")
    by first [apply Henv; in_list | apply (Hload K_USER_NEWBEST_LIMIT)].
  rewrite (read_sources_congr w w' "ROLE_THRESHOLDS_JSON" "ROLE_THRESHOLDS")
    by first [apply Henv; in_list | apply (Hload K_ROLE_THRESHOLDS)].
  rewrite (optional_id_congr w w' "PERVERT_ROLE") by (apply Henv; in_list).
  rewrite (optional_id_congr w w' "BOT_SELF_ID") by (apply Henv; in_list).
  rewrite (optional_id_congr w w' "BOTSPAM_CHANNEL_ID") by (apply Henv; in_list).
  rewrite !(Henv "API_CLIENT_ID"), !(Henv "API_CLIENT_SECRET"),
    !(Henv "POST_REQUEST_URL"), !(Henv "POST_REQUEST_TOKEN") by in_list.
  reflexivity.
Qed.

Lemma bind_DATABASE_URL_congr w w' :
  (forall n, n ∈ db_vars -> os_getenv w' n = os_getenv w n) ->
  bind_DATABASE_URL w' = bind_DATABASE_URL w.
Proof. intros Henv. unfold bind_DATABASE_URL. rewrite !Henv by in_list. done. Qed.

(** X1. The script reads twenty environment variables and nothing else
    of the environment: two worlds with the same files that agree on those
    variables run the import identically (same trace, same outcome). *)
Theorem unread_variables_are_ignored w w' :
  files w' = files w ->
  (forall n, n ∈ read_vars -> os_getenv w' n = os_getenv w n) ->
  config_module w' = config_module w.
Proof.
  intros Hfiles Henv.
  assert (forall n, bool_decide (n ∈ read_vars) = true -> os_getenv w' n = os_getenv w n)
    as Hread by (intros n Hn%bool_decide_eq_true; by apply Henv).
  apply config_module_congr.
  - intros n Hn. apply Henv. unfold read_vars. apply elem_of_app. by left.
  - apply bind_DATABASE_URL_congr. intros n Hn. apply Henv. unfold read_vars.
    apply elem_of_app. right. apply elem_of_cons. by right.
  - intros k. apply load_file_congr; [by apply Hread | by rewrite Hfiles].
Qed.

(** X2. Of the file system the import depends on one path only, the
    mappings path: two worlds with the same environment and the same thing
    at that path run the import identically. *)
Theorem only_the_mappings_path_matters w w' :
  environ w' = environ w ->
  files w' !! mappings_path w = files w !! mappings_path w ->
  config_module w' = config_module w.
Proof.
  intros Henv Hfile.
  assert (forall n, os_getenv w' n = os_getenv w n) as Hget
    by (intros n; unfold os_getenv; by rewrite Henv).
  apply config_module_congr; [by intros n _ | | by intros k; apply load_file_congr].
  by apply bind_DATABASE_URL_congr.
Qed.

(** X3. Keys of the mappings file other than ROLES, MODS_DICT,
    RANK_EMOJI, USER_NEWBEST_LIMIT and ROLE_THRESHOLDS are ignored: two
    files whose objects agree on those five keys give the same import. *)
Theorem unrecognised_file_keys_are_ignored w w' text text' d d' :
  environ w' = environ w ->
  files w !! mappings_path w = Some (FileText text) ->
  files w' !! mappings_path w = Some (FileText text') ->
  json_loads text = inr (PDict d) ->
  json_loads text' = inr (PDict d') ->
  (forall k, dict_get (mapping_name k) d' = dict_get (mapping_name k) d) ->
  config_module w' = config_module w.
Proof.
  intros Henv Hfile Hfile' Hd Hd' Hkeys.
  assert (forall n, os_getenv w' n = os_getenv w n) as Hget
    by (intros n; unfold os_getenv; by rewrite Henv).
  assert (mappings_path w' = mappings_path w) as Hpath
    by (unfold mappings_path; by rewrite Hget).
  apply config_module_congr; [by intros n _ | by apply bind_DATABASE_URL_congr |].
  intros k.
  rewrite (load_file_parsed json_loads default_mappings_path w _ text (PDict d) Hfile Hd).
  rewrite <- Hpath in Hfile'.
  rewrite (load_file_parsed json_loads default_mappings_path w' _ text' (PDict d') Hfile' Hd').
  rewrite Hpath. unfold py_get. by rewrite Hkeys.
Qed.

(** X4. With a non-empty DATABASE_URL the three POSTGRES_* variables are
    not used: changing them in any way leaves the import unchanged. *)
Theorem postgres_parts_unused_with_database_url w w' s :
  files w' = files w ->
  (forall n, n ∉ postgres_vars -> os_getenv w' n = os_getenv w n) ->
  os_getenv w "DATABASE_URL" = Some s -> s <> "" ->
  config_module w' = config_module w.
Proof.
  intros Hfiles Henv Hs Hne.
  assert (forall n, bool_decide (n ∉ postgres_vars) = true -> os_getenv w' n = os_getenv w n)
    as Hother by (intros n Hn%bool_decide_eq_true; by apply Henv).
  apply config_module_congr.
  - intros n Hn. apply Henv. intros Hp.
    assert (bool_decide (n ∈ core_vars) = true) as Hc by by apply bool_decide_eq_true.
    unfold postgres_vars in Hp.
    repeat (apply elem_of_cons in Hp as [-> | Hp]; [by vm_compute in Hc |]).
    by apply elem_of_nil in Hp.
  - unfold bind_DATABASE_URL. rewrite (Hother "DATABASE_URL") by done. rewrite Hs. simpl.
    by destruct (String.eqb_spec s "").
  - intros k. apply load_file_congr; [by apply Hother | by rewrite Hfiles].
Qed.

(** X5. API_CLIENT_ID, API_CLIENT_SECRET, POST_REQUEST_URL and
    POST_REQUEST_TOKEN are copied as [os.getenv] returns them, unset or
    empty included, and are never checked: changing them changes nothing of
    the import but those four settings. *)
Theorem passthrough_settings_unchecked w w' :
  files w' = files w ->
  (forall n, n ∉ passthrough_vars -> os_getenv w' n = os_getenv w n) ->
  config_module w' = with_passthrough w' <$> config_module w.
Proof.
  intros Hfiles Henv.
  assert (forall n, bool_decide (n ∉ passthrough_vars) = true ->
            os_getenv w' n = os_getenv w n)
    as Hother by (intros n Hn%bool_decide_eq_true; by apply Henv).
  assert (forall key, load_file w' key = load_file w key) as Hload
    by (intros key; apply load_file_congr; [by apply Hother | by rewrite Hfiles]).
  unfold config_module.
  replace (discord_configuration w') with (discord_configuration w)
    by (unfold discord_configuration, required; rewrite !Hother by done; done).
  replace (bind_DATABASE_URL w') with (bind_DATABASE_URL w)
    by (unfold bind_DATABASE_URL; rewrite !Hother by done; done).
  unfold bind_ROLES, bind_MODS_DICT, bind_RANK_EMOJI, bind_USER_NEWBEST_LIMIT,
    bind_ROLE_TRESHOLDS, bind_PERVERT_ROLE, bind_BOT_SELF_ID, bind_BOTSPAM_CHANNEL_ID,
    int_mapping, opaque_mapping.
  rewrite (read_sources_congr w w' "ROLES_JSON" "ROLES") by first [by apply Hother | done].
  rewrite (read_sources_congr w w' "MODS_DICT_JSON" "MODS_DICT")
    by first [by apply Hother | done].
  rewrite (read_sources_congr w w' "RANK_EMOJI_JSON" "RANK_EMOJI")
    by first [by apply Hother | done].
  rewrite (read_sources_congr w w' "USER_NEWBEST_LIMIT_JSON" "USER_NEWBEST_LIMIT")
    by first [by apply Hother | done].
  rewrite (read_sources_congr w w' "ROLE_THRESHOLDS_JSON" "ROLE_THRESHOLDS")
    by first [by apply Hother | done].
  rewrite (optional_id_congr w w' "PERVERT_ROLE") by by apply Hother.
  rewrite (optional_id_congr w w' "BOT_SELF_ID") by by apply Hother.
  rewrite (optional_id_congr w w' "BOTSPAM_CHANNEL_ID") by by apply Hother.
  rewrite fmap_bind. apply bind_ext. intros [[tok sid] cid].
  repeat (rewrite fmap_bind; apply bind_ext; intros ?).
  reflexivity.
Qed.

(** ** Exceptions that leave the script *)

Lemma py_get_non_object data key :
  is_object data = false -> py_get data key = inl (no_attribute data "get").
Proof. by destruct data. Qed.

Lemma py_items_non_object obj :
  is_object obj = false -> py_items obj = inl (no_attribute obj "items").
Proof. by destruct obj. Qed.

Lemma py_get_error data key e :
  py_get data key = inl e -> is_object data = false /\ e = no_attribute data "get".
Proof. destruct data; simpl; intros [= <-]; done. Qed.

Lemma discord_configuration_error w t e :
  discord_configuration w = (t, inl e) -> exn_cls e = ValueError.
Proof.
  unfold discord_configuration, required.
  destruct (os_getenv w "DISCORD_TOKEN") as [s0 |]; [| by intros [= _ <-]].
  destruct (truthy (PStr s0)); [| by intros [= _ <-]]. rewrite bind_ret.
  destruct (os_getenv w "SERVER_ID") as [s1 |]; [| by intros [= _ <-]].
  destruct (truthy (PStr s1)); [| by intros [= _ <-]]. rewrite bind_ret.
  destruct (os_getenv w "BOT_CHANNEL_ID") as [s2 |]; [| by intros [= _ <-]].
  destruct (truthy (PStr s2)); [| by intros [= _ <-]]. rewrite bind_ret.
  unfold py_int.
  destruct (int_of_string s1); [| by intros [= _ <-]]. rewrite bind_lift_inr.
  destruct (int_of_string s2); [| by intros [= _ <-]]. by rewrite bind_lift_inr.
Qed.

Lemma optional_id_error w name err_msg log_msg t e :
  optional_id w name err_msg log_msg = (t, inl e) -> exn_cls e = ValueError.
Proof.
  unfold optional_id. destruct (os_getenv w name) as [s |]; simpl; [| done].
  destruct (negb (String.eqb s "")); [| done]. simpl.
  destruct (int_of_string s); simpl; [done |]. by intros [= _ <-].
Qed.

Lemma load_file_error w key t e :
  load_file w key = (t, inl e) ->
  exists text data,
    files w !! mappings_path w = Some (FileText text) /\
    json_loads text = inr data /\ is_object data = false /\ e = no_attribute data "get".
Proof.
  destruct (files w !! mappings_path w) as [[text | e0] |] eqn:Hfile.
  - destruct (json_loads text) as [e1 | data] eqn:Hparse.
    + by rewrite (load_file_malformed json_loads default_mappings_path w key text e1).
    + rewrite (load_file_parsed json_loads default_mappings_path w key text data) by done.
      intros [= _ Hget]. apply py_get_error in Hget as [? ?]. by exists text, data.
  - by rewrite (load_file_unreadable json_loads default_mappings_path w key e0).
  - by rewrite (load_file_missing json_loads default_mappings_path w key).
Qed.

Lemma read_sources_error w env_name file_key t e :
  read_sources w env_name file_key = (t, inl e) ->
  exists text data,
    files w !! mappings_path w = Some (FileText text) /\
    json_loads text = inr data /\ is_object data = false /\ e = no_attribute data "get".
Proof.
  unfold read_sources. destruct (negb (truthy _)); [apply load_file_error | done].
Qed.

Lemma int_mapping_of_error name log_msg raw t e :
  int_mapping_of json_loads name log_msg raw = (t, inl e) -> exn_cls e = ValueError.
Proof.
  unfold int_mapping_of. destruct (truthy raw); [| done].
  assert (exists r, decode_raw json_loads raw = lift r) as [r ->]
    by (destruct raw; by eexists).
  destruct r as [e0 | obj]; [by intros [= _ <-] |]. rewrite bind_lift_inr.
  destruct (py_items obj) as [e0 | items]; [by intros [= _ <-] |]. rewrite bind_lift_inr.
  destruct (int_dict items); [by intros [= _ <-] | done].
Qed.

Lemma opaque_mapping_of_error name log_msg raw t e :
  opaque_mapping_of json_loads name log_msg raw = (t, inl e) -> exn_cls e = ValueError.
Proof.
  unfold opaque_mapping_of. destruct (truthy raw); [| done].
  assert (exists r, decode_raw json_loads raw = lift r) as [r ->]
    by (destruct raw; by eexists).
  destruct r as [e0 | obj]; [by intros [= _ <-] | done].
Qed.

Lemma int_mapping_error w env_name file_key log_msg t e :
  int_mapping w env_name file_key log_msg = (t, inl e) -> expected_error w e.
Proof.
  unfold int_mapping. intros [H | (? & ? & ? & _ & H & _)]%bind_inl_inv.
  - right. by eapply read_sources_error.
  - left. by eapply int_mapping_of_error.
Qed.

Lemma opaque_mapping_error w env_name file_key log_msg t e :
  opaque_mapping w env_name file_key log_msg = (t, inl e) -> expected_error w e.
Proof.
  unfold opaque_mapping. intros [H | (? & ? & ? & _ & H & _)]%bind_inl_inv.
  - right. by eapply read_sources_error.
  - left. by eapply opaque_mapping_of_error.
Qed.

Lemma config_module_error w t e : config_module w = (t, inl e) -> expected_error w e.
Proof.
  unfold config_module. intros H.
  apply bind_inl_inv in H as [H | (? & [[tok sid] cid] & ? & _ & H & _)];
    [left; by eapply discord_configuration_error |].
  apply bind_inl_inv in H as [H | (? & ? & ? & _ & H & _)];
    [by eapply int_mapping_error |].
  apply bind_inl_inv in H as [H | (? & ? & ? & _ & H & _)];
    [left; by eapply optional_id_error |].
  apply bind_inl_inv in H as [H | (? & ? & ? & _ & H & _)];
    [left; by eapply optional_id_error |].
  apply bind_inl_inv in H as [H | (? & ? & ? & _ & H & _)];
    [left; by eapply optional_id_error |].
  apply bind_inl_inv in H as [H | (? & ? & ? & _ & H & _)];
    [by eapply int_mapping_error |].
  apply bind_inl_inv in H as [H | (? & ? & ? & _ & H & _)];
    [by eapply opaque_mapping_error |].
  apply bind_inl_inv in H as [H | (? & ? & ? & _ & H & _)];
    [by eapply int_mapping_error |].
  apply bind_inl_inv in H as [H | (? & ? & ? & _ & H & _)];
    [by eapply int_mapping_error |].
  done.
Qed.

(** X6. A mappings file that holds valid JSON other than an object (an
    array, a number, a string, [null]) is not a soft failure: every lookup
    raises the [AttributeError] of [data.get], which nothing catches, so
    with the required variables in order and ROLES_JSON not given the import
    ends with that error right after reading the file. *)
Theorem non_object_mappings_file_is_fatal w text data :
  files w !! mappings_path w = Some (FileText text) ->
  json_loads text = inr data ->
  is_object data = false ->
  (forall key,
     load_file w key =
       ([PathExists (mappings_path w); OpenRead (mappings_path w)],
        inl (no_attribute data "get"))) /\
  (forall x,
     discord_configuration w = ([], inr x) ->
     os_getenv w "ROLES_JSON" = None \/ os_getenv w "ROLES_JSON" = Some "" ->
     config_module w =
       ([PathExists (mappings_path w); OpenRead (mappings_path w)],
        inl (no_attribute data "get"))).
Proof.
  intros Hfile Hparse Hdata.
  assert (forall key,
            load_file w key =
              ([PathExists (mappings_path w); OpenRead (mappings_path w)],
               inl (no_attribute data "get"))) as Hload.
  { intros key.
    rewrite (load_file_parsed json_loads default_mappings_path w key text data) by done.
    by rewrite py_get_non_object. }
  split; [done |]. intros [[tok sid] cid] Hd Habs%unset_true.
  unfold config_module.
  replace (discord_configuration w) with (mret (tok, sid, cid) : M (string * Z * Z)).
  rewrite bind_ret. unfold bind_ROLES, int_mapping.
  by rewrite (read_sources_unset json_loads default_mappings_path w _ _ Habs), Hload.
Qed.

(** X7. Whatever the environment and the files, an import that fails
    raises a [ValueError], the one exception being the [AttributeError] of a
    mappings file whose JSON is not an object. *)
Theorem import_error_classes w t e :
  config_module w = (t, inl e) ->
  exn_cls e = ValueError \/
  exists text data,
    files w !! mappings_path w = Some (FileText text) /\
    json_loads text = inr data /\ is_object data = false /\ e = no_attribute data "get".
Proof. apply config_module_error. Qed.

(** X8. A mappings path that exists but cannot be opened or read (a
    directory, a file without read permission, bytes that are not UTF-8) is
    a soft failure: every lookup returns [None] after one diagnostic log
    record, and the import ends as it would without any file. *)
Theorem unreadable_mappings_file_is_soft w e :
  files w !! mappings_path w = Some (Unreadable e) ->
  (forall key,
     load_file w key =
       ([PathExists (mappings_path w); OpenRead (mappings_path w);
         LogInfo (failed_to_read (mappings_path w) e)], inr PNone)) /\
  (config_module w).2 = (config_module (without_files w)).2.
Proof.
  intros Hfile.
  pose proof (fun key => load_file_unreadable json_loads default_mappings_path w key e Hfile)
    as Hload.
  split; [exact Hload |]. symmetry.
  apply config_module_same; [done | |].
  - intros key. by rewrite Hload.
  - intros key. by rewrite load_file_without_files.
Qed.

(** X9. For MAPPINGS_FILE it is presence, not truthiness, that decides:
    once the variable is set, to the empty string included, its value is the
    path, and the default path is not looked at.  With nothing at that path
    every lookup returns [None] and the import ends as without any file,
    whatever lies at the default path. *)
Theorem mappings_file_override_by_presence w p :
  os_getenv w "MAPPINGS_FILE" = Some p ->
  mappings_path w = p /\
  (files w !! p = None ->
     (forall key, load_file w key = ([PathExists p], inr PNone)) /\
     (config_module w).2 = (config_module (without_files w)).2).
Proof.
  intros Hp.
  assert (mappings_path w = p) as Hpath by (unfold mappings_path; by rewrite Hp).
  split; [done |]. intros Hnone. rewrite <- Hpath in Hnone.
  pose proof (fun key => load_file_missing json_loads default_mappings_path w key Hnone)
    as Hload.
  rewrite Hpath in Hload. split; [exact Hload |]. symmetry.
  apply config_module_same; [done | |].
  - intros key. by rewrite Hload.
  - intros key. by rewrite load_file_without_files.
Qed.

(** X10. For the integer-valued settings the decoded value must be an
    object: a truthy array, number, boolean or string (found in the file or
    decoded from JSON text) makes [.items()] fail, which the block turns
    into [ValueError("Invalid <KEY> JSON provided (env or file): '<type>'
    object has no attribute 'items'")], and the import produces no
    configuration. *)
Theorem non_object_value_is_fatal (k : mapping_key) w t raw obj :
  int_valued k = true ->
  read_sources w (mapping_env k) (mapping_name k) = (t, inr raw) ->
  truthy raw = true ->
  decodes_to json_loads raw obj ->
  is_object obj = false ->
  bind_mapping k w = (t, inl (invalid_json (mapping_name k) (no_attribute obj "items"))) /\
  forall t' cfg, config_module w <> (t', inr cfg).
Proof.
  intros Hk Hread Ht Hd Hobj.
  assert (bind_mapping k w
            = (t, inl (invalid_json (mapping_name k) (no_attribute obj "items")))) as Hb.
  { rewrite (bind_mapping_found json_loads default_mappings_path k w t raw Hread Ht).
    rewrite (coerce_mapping_int json_loads k raw obj Hk Ht Hd).
    by rewrite (py_items_non_object obj Hobj). }
  split; [done | by eapply bind_mapping_fatal].
Qed.

(** ** Traces *)

Lemma discord_configuration_trace w : (discord_configuration w).1 = [].
Proof.
  unfold discord_configuration, required.
  destruct (os_getenv w "DISCORD_TOKEN") as [s0 |]; [| done].
  destruct (truthy (PStr s0)); [| done]. rewrite bind_ret.
  destruct (os_getenv w "SERVER_ID") as [s1 |]; [| done].
  destruct (truthy (PStr s1)); [| done]. rewrite bind_ret.
  destruct (os_getenv w "BOT_CHANNEL_ID") as [s2 |]; [| done].
  destruct (truthy (PStr s2)); [| done]. rewrite bind_ret.
  unfold py_int.
  destruct (int_of_string s1); [| done]. rewrite bind_lift_inr.
  destruct (int_of_string s2); [| done]. by rewrite bind_lift_inr.
Qed.

(** The trace of a successful import is the traces of its blocks, one after
    the other. *)
Lemma config_module_trace w t cfg :
  config_module w = (t, inr cfg) ->
  t = (bind_ROLES json_loads default_mappings_path w).1
      ++ (bind_PERVERT_ROLE w).1 ++ (bind_BOT_SELF_ID w).1 ++ (bind_BOTSPAM_CHANNEL_ID w).1
      ++ (bind_MODS_DICT json_loads default_mappings_path w).1
      ++ (bind_RANK_EMOJI json_loads default_mappings_path w).1
      ++ (bind_USER_NEWBEST_LIMIT json_loads default_mappings_path w).1
      ++ (bind_ROLE_TRESHOLDS json_loads default_mappings_path w).1.
Proof.
  unfold config_module. intros H.
  apply bind_inr_inv in H as (t0 & [[tok sid] cid] & ? & Hd & H & ->).
  pose proof (discord_configuration_trace w) as Ht0. rewrite Hd in Ht0. simpl in Ht0.
  subst t0.
  repeat (apply bind_inr_inv in H as (? & ? & ? & -> & H & ->)).
  injection H as <- _. simpl. by rewrite app_nil_r.
Qed.

Lemma int_mapping_of_trace name log_msg raw :
  (int_mapping_of json_loads name log_msg raw).1 = if truthy raw then [] else [LogInfo log_msg].
Proof.
  unfold int_mapping_of. destruct (truthy raw); [| done].
  assert (exists r, decode_raw json_loads raw = lift r) as [r ->]
    by (destruct raw; by eexists).
  destruct r as [e0 | obj]; [done |]. rewrite bind_lift_inr.
  destruct (py_items obj) as [e0 | items]; [done |]. rewrite bind_lift_inr.
  by destruct (int_dict items).
Qed.

Lemma opaque_mapping_of_trace name log_msg raw :
  (opaque_mapping_of json_loads name log_msg raw).1
    = if truthy raw then [] else [LogInfo log_msg].
Proof.
  unfold opaque_mapping_of. destruct (truthy raw); [| done].
  assert (exists r, decode_raw json_loads raw = lift r) as [r ->]
    by (destruct raw; by eexists).
  by destruct r.
Qed.

Lemma optional_id_trace w name err_msg log_msg :
  (optional_id w name err_msg log_msg).1 = if unset w name then [LogInfo log_msg] else [].
Proof.
  unfold optional_id, unset. destruct (truthy _); simpl; [| done].
  destruct (py_int _) as [e | z]; simpl; [| done]. by destruct (is_ValueError _).
Qed.

(** The events of a file lookup: one probe, one opening when something is
    there, at most one diagnostic. *)
Lemma load_file_events w key :
  probes (load_file w key).1 = [mappings_path w] /\
  opens (load_file w key).1 =
    (if bool_decide (is_Some (files w !! mappings_path w)) then [mappings_path w] else []) /\
  forall m, m ∈ logs (load_file w key).1 -> exists e, m = failed_to_read (mappings_path w) e.
Proof.
  destruct (files w !! mappings_path w) as [[text | e0] |] eqn:Hfile.
  - rewrite bool_decide_eq_true_2 by done.
    destruct (json_loads text) as [e1 | data] eqn:Hparse.
    + rewrite (load_file_malformed json_loads default_mappings_path w key text e1) by done.
      repeat split. intros m Hm. apply list_elem_of_singleton in Hm. by exists e1.
    + rewrite (load_file_parsed json_loads default_mappings_path w key text data) by done.
      repeat split. intros m Hm. by apply elem_of_nil in Hm.
  - rewrite bool_decide_eq_true_2 by done.
    rewrite (load_file_unreadable json_loads default_mappings_path w key e0) by done.
    repeat split. intros m Hm. apply list_elem_of_singleton in Hm. by exists e0.
  - rewrite bool_decide_eq_false_2 by (by intros [? ?]).
    rewrite (load_file_missing json_loads default_mappings_path w key) by done.
    repeat split. intros m Hm. by apply elem_of_nil in Hm.
Qed.

Lemma read_sources_events w env_name file_key :
  probes (read_sources w env_name file_key).1
    = (if unset w env_name then [mappings_path w] else []) /\
  opens (read_sources w env_name file_key).1
    = (if unset w env_name && bool_decide (is_Some (files w !! mappings_path w))
       then [mappings_path w] else []) /\
  forall m, m ∈ logs (read_sources w env_name file_key).1 ->
    exists e, m = failed_to_read (mappings_path w) e.
Proof.
  unfold read_sources, unset. destruct (negb (truthy _)); simpl.
  - apply load_file_events.
  - repeat split. intros m Hm. by apply elem_of_nil in Hm.
Qed.

(** The events of a mapping block. *)
Lemma mapping_block_events (block : M pyval + M (list (string * Z))) w env_name file_key log_msg :
  block = inl (opaque_mapping w env_name file_key log_msg) \/
  block = inr (int_mapping w env_name file_key log_msg) ->
  let t := match block with inl m => m.1 | inr m => m.1 end in
  probes t = (if unset w env_name then [mappings_path w] else []) /\
  opens t = (if unset w env_name && bool_decide (is_Some (files w !! mappings_path w))
             then [mappings_path w] else []) /\
  forall m, m ∈ logs t -> m = log_msg \/ exists e, m = failed_to_read (mappings_path w) e.
Proof.
  pose proof (read_sources_events w env_name file_key) as (Hp & Ho & Hl).
  assert (forall raw t', (t' = (int_mapping_of json_loads file_key log_msg raw).1 \/
                          t' = (opaque_mapping_of json_loads file_key log_msg raw).1) ->
            probes t' = [] /\ opens t' = [] /\ forall m, m ∈ logs t' -> m = log_msg) as Hof.
  { intros raw t' Ht'.
    assert (t' = if truthy raw then [] else [LogInfo log_msg]) as ->
      by (destruct Ht' as [-> | ->];
          [apply int_mapping_of_trace | apply opaque_mapping_of_trace]).
    destruct (truthy raw); repeat split; intros m Hm;
      [by apply elem_of_nil in Hm | by apply list_elem_of_singleton in Hm]. }
  intros [-> | ->]; cbv zeta;
    (unfold opaque_mapping, int_mapping; rewrite bind_trace, probes_app, opens_app, logs_app;
     rewrite Hp, Ho;
     destruct (read_sources w env_name file_key).2 as [e | raw];
     [ rewrite !app_nil_r; repeat split; intros m Hm; right; by apply Hl
     | edestruct (Hof raw) as (-> & -> & Hlog); [by eauto |];
       rewrite !app_nil_r; repeat split;
       intros m [Hm | Hm]%elem_of_app; [right; by apply Hl | left; by apply Hlog] ]).
Qed.

Lemma int_mapping_events w env_name file_key log_msg :
  probes (int_mapping w env_name file_key log_msg).1
    = (if unset w env_name then [mappings_path w] else []) /\
  opens (int_mapping w env_name file_key log_msg).1
    = (if unset w env_name && bool_decide (is_Some (files w !! mappings_path w))
       then [mappings_path w] else []) /\
  forall m, m ∈ logs (int_mapping w env_name file_key log_msg).1 ->
    m = log_msg \/ exists e, m = failed_to_read (mappings_path w) e.
Proof.
  exact (mapping_block_events (inr (int_mapping w env_name file_key log_msg))
           w env_name file_key log_msg (or_intror eq_refl)).
Qed.

Lemma opaque_mapping_events w env_name file_key log_msg :
  probes (opaque_mapping w env_name file_key log_msg).1
    = (if unset w env_name then [mappings_path w] else []) /\
  opens (opaque_mapping w env_name file_key log_msg).1
    = (if unset w env_name && bool_decide (is_Some (files w !! mappings_path w))
       then [mappings_path w] else []) /\
  forall m, m ∈ logs (opaque_mapping w env_name file_key log_msg).1 ->
    m = log_msg \/ exists e, m = failed_to_read (mappings_path w) e.
Proof.
  exact (mapping_block_events (inl (opaque_mapping w env_name file_key log_msg))
           w env_name file_key log_msg (or_introl eq_refl)).
Qed.

Lemma int_mapping_probes w env_name file_key log_msg :
  probes (int_mapping w env_name file_key log_msg).1
    = (if unset w env_name then [mappings_path w] else []).
Proof. apply int_mapping_events. Qed.

Lemma int_mapping_opens w env_name file_key log_msg :
  opens (int_mapping w env_name file_key log_msg).1
    = (if unset w env_name && bool_decide (is_Some (files w !! mappings_path w))
       then [mappings_path w] else []).
Proof. apply int_mapping_events. Qed.

Lemma opaque_mapping_probes w env_name file_key log_msg :
  probes (opaque_mapping w env_name file_key log_msg).1
    = (if unset w env_name then [mappings_path w] else []).
Proof. apply opaque_mapping_events. Qed.

Lemma opaque_mapping_opens w env_name file_key log_msg :
  opens (opaque_mapping w env_name file_key log_msg).1
    = (if unset w env_name && bool_decide (is_Some (files w !! mappings_path w))
       then [mappings_path w] else []).
Proof. apply opaque_mapping_events. Qed.

Lemma optional_id_probes w name err_msg log_msg :
  probes (optional_id w name err_msg log_msg).1 = [].
Proof. rewrite optional_id_trace. by destruct (unset w name). Qed.

Lemma optional_id_opens w name err_msg log_msg :
  opens (optional_id w name err_msg log_msg).1 = [].
Proof. rewrite optional_id_trace. by destruct (unset w name). Qed.

Lemma optional_id_logs w name err_msg log_msg m :
  m ∈ logs (optional_id w name err_msg log_msg).1 -> m = log_msg /\ unset w name = true.
Proof.
  rewrite optional_id_trace. destruct (unset w name); simpl; intros Hm.
  - by apply list_elem_of_singleton in Hm.
  - by apply elem_of_nil in Hm.
Qed.

Lemma optional_id_result w name err_msg log_msg r :
  (optional_id w name err_msg log_msg).2 = inr r -> (r = None <-> unset w name = true).
Proof.
  unfold optional_id, unset. destruct (truthy _); simpl.
  - destruct (py_int _) as [e | z]; simpl.
    + by destruct (is_ValueError _).
    + by intros [= <-].
  - by intros [= <-].
Qed.

(** X11. A successful import asks whether the mappings file exists once
    for every mapping setting that the environment leaves out, in script
    order, and for nothing else; it opens the file after each of those
    probes when something is at that path, and never otherwise.  Nothing
    read from the file is kept from one setting to the next. *)
Theorem mappings_file_probed_once_per_missing_setting w t cfg :
  config_module w = (t, inr cfg) ->
  probes t = replicate (length (unset_mappings w)) (mappings_path w) /\
  opens t = (if bool_decide (is_Some (files w !! mappings_path w)) then probes t else []).
Proof.
  intros H. rewrite (config_module_trace _ _ _ H).
  rewrite !probes_app, !opens_app.
  unfold bind_ROLES, bind_MODS_DICT, bind_RANK_EMOJI, bind_USER_NEWBEST_LIMIT,
    bind_ROLE_TRESHOLDS, bind_PERVERT_ROLE, bind_BOT_SELF_ID, bind_BOTSPAM_CHANNEL_ID.
  rewrite !int_mapping_probes, !opaque_mapping_probes, !optional_id_probes.
  rewrite !int_mapping_opens, !opaque_mapping_opens, !optional_id_opens.
  unfold unset_mappings, mapping_keys. cbn [List.filter].
  change (mapping_env K_ROLES) with "ROLES_JSON".
  change (mapping_env K_MODS_DICT) with "MODS_DICT_JSON".
  change (mapping_env K_RANK_EMOJI) with "RANK_EMOJI_JSON".
  change (mapping_env K_USER_NEWBEST_LIMIT) with "USER_NEWBEST_LIMIT_JSON".
  change (mapping_env K_ROLE_THRESHOLDS) with "ROLE_THRESHOLDS_JSON".
  destruct (bool_decide (is_Some (files w !! mappings_path w)));
    destruct (unset w "ROLES_JSON"), (unset w "MODS_DICT_JSON"),
      (unset w "RANK_EMOJI_JSON"), (unset w "USER_NEWBEST_LIMIT_JSON"),
      (unset w "ROLE_THRESHOLDS_JSON"); split; reflexivity.
Qed.

(** X12. In a successful import an optional id ends as [None] exactly
    when its "not configured" message is among the records logged: the
    message is logged for no other reason, and an id that was read is never
    announced as missing. *)
Theorem optional_id_is_none_iff_logged (k : optional_key) w t cfg :
  config_module w = (t, inr cfg) ->
  (optional_field k cfg = None <-> optional_log k ∈ logs t).
Proof.
  intros H.
  pose proof (config_module_optional _ _ _ _ _ k H) as Hk.
  assert (optional_field k cfg = None <-> unset w (optional_name k) = true) as ->
    by (destruct k; apply (optional_id_result _ _ _ _ _ Hk)).
  rewrite (config_module_trace _ _ _ H), !logs_app, !elem_of_app.
  unfold bind_ROLES, bind_MODS_DICT, bind_RANK_EMOJI, bind_USER_NEWBEST_LIMIT,
    bind_ROLE_TRESHOLDS, bind_PERVERT_ROLE, bind_BOT_SELF_ID, bind_BOTSPAM_CHANNEL_ID.
  split.
  - intros Hu. right.
    destruct k; simpl in Hu;
      [left | right; left | right; right; left];
      rewrite optional_id_trace, Hu; by apply list_elem_of_singleton.
  - intros Hin.
    repeat (destruct Hin as [Hm | Hin];
            [ first [ apply int_mapping_events in Hm as [Hm | [e Hm]]
                    | apply opaque_mapping_events in Hm as [Hm | [e Hm]]
                    | apply optional_id_logs in Hm as [Hm Hu] ];
              destruct k; try (by vm_compute in Hm); exact Hu
            | ]).
    apply int_mapping_events in Hin as [Hm | [e Hm]];
      destruct k; by vm_compute in Hm.
Qed.

(** ** An import served by the environment alone *)

Lemma config_module_congr_sources w w' :
  (forall n, n ∈ core_vars -> os_getenv w' n = os_getenv w n) ->
  bind_DATABASE_URL w' = bind_DATABASE_URL w ->
  (forall k, read_sources w' (mapping_env k) (mapping_name k)
             = read_sources w (mapping_env k) (mapping_name k)) ->
  config_module w' = config_module w.
Proof.
  intros Henv Hurl Hsrc. unfold config_module. rewrite Hurl.
  replace (discord_configuration w') with (discord_configuration w)
    by (unfold discord_configuration, required; rewrite !Henv by in_list; done).
  unfold bind_ROLES, bind_MODS_DICT, bind_RANK_EMOJI, bind_USER_NEWBEST_LIMIT,
    bind_ROLE_TRESHOLDS, bind_PERVERT_ROLE, bind_BOT_SELF_ID, bind_BOTSPAM_CHANNEL_ID,
    int_mapping, opaque_mapping.
  pose proof (Hsrc K_ROLES) as H1. pose proof (Hsrc K_MODS_DICT) as H2.
  pose proof (Hsrc K_RANK_EMOJI) as H3. pose proof (Hsrc K_USER_NEWBEST_LIMIT) as H4.
  pose proof (Hsrc K_ROLE_THRESHOLDS) as H5.
  change (mapping_env K_ROLES) with "ROLES_JSON" in H1.
  change (mapping_env K_MODS_DICT) with "MODS_DICT_JSON" in H2.
  change (mapping_env K_RANK_EMOJI) with "RANK_EMOJI_JSON" in H3.
  change (mapping_env K_USER_NEWBEST_LIMIT) with "USER_NEWBEST_LIMIT_JSON" in H4.
  change (mapping_env K_ROLE_THRESHOLDS) with "ROLE_THRESHOLDS_JSON" in H5.
  simpl mapping_name in *.
  rewrite H1, H2, H3, H4, H5.
  rewrite (optional_id_congr w w' "PERVERT_ROLE") by (apply Henv; in_list).
  rewrite (optional_id_congr w w' "BOT_SELF_ID") by (apply Henv; in_list).
  rewrite (optional_id_congr w w' "BOTSPAM_CHANNEL_ID") by (apply Henv; in_list).
  rewrite !(Henv "API_CLIENT_ID"), !(Henv "API_CLIENT_SECRET"),
    !(Henv "POST_REQUEST_URL"), !(Henv "POST_REQUEST_TOKEN") by in_list.
  reflexivity.
Qed.

Lemma unset_mappings_nil w k : unset_mappings w = [] -> unset w (mapping_env k) = false.
Proof.
  unfold unset_mappings, mapping_keys. cbn [List.filter].
  destruct (unset w (mapping_env K_ROLES)) eqn:H1; [done |].
  destruct (unset w (mapping_env K_MODS_DICT)) eqn:H2; [done |].
  destruct (unset w (mapping_env K_RANK_EMOJI)) eqn:H3; [done |].
  destruct (unset w (mapping_env K_USER_NEWBEST_LIMIT)) eqn:H4; [done |].
  destruct (unset w (mapping_env K_ROLE_THRESHOLDS)) eqn:H5; [done |].
  by destruct k.
Qed.

Lemma bind_no_file_access {A B} (m : M A) (f : A -> M B) :
  no_file_access m.1 -> (forall a, no_file_access (f a).1) ->
  no_file_access (m ≫= f).1.
Proof.
  unfold no_file_access. intros [Hp Ho] Hf.
  rewrite bind_trace, probes_app, opens_app, Hp, Ho.
  destruct m.2 as [e | a]; [done | apply Hf].
Qed.

Lemma optional_id_no_file_access w name err_msg log_msg :
  no_file_access (optional_id w name err_msg log_msg).1.
Proof. split; [apply optional_id_probes | apply optional_id_opens]. Qed.

Lemma int_mapping_no_file_access w env_name file_key log_msg :
  unset w env_name = false -> no_file_access (int_mapping w env_name file_key log_msg).1.
Proof.
  intros Hu. split.
  - by rewrite int_mapping_probes, Hu.
  - by rewrite int_mapping_opens, Hu.
Qed.

Lemma opaque_mapping_no_file_access w env_name file_key log_msg :
  unset w env_name = false -> no_file_access (opaque_mapping w env_name file_key log_msg).1.
Proof.
  intros Hu. split.
  - by rewrite opaque_mapping_probes, Hu.
  - by rewrite opaque_mapping_opens, Hu.
Qed.

(** X13. When the environment gives all five mapping settings, the
    import never touches the file system, whether it succeeds or fails, and
    it runs the same way whatever the files are. *)
Theorem environment_only_import w :
  unset_mappings w = [] ->
  no_file_access (config_module w).1 /\
  forall fs, config_module (World (environ w) fs) = config_module w.
Proof.
  intros Hall. pose proof (fun k => unset_mappings_nil w k Hall) as Hset. split.
  - unfold config_module.
    apply bind_no_file_access; [by rewrite discord_configuration_trace |].
    intros [[tok sid] cid].
    apply bind_no_file_access; [apply int_mapping_no_file_access, (Hset K_ROLES) |]. intros ?.
    do 3 (apply bind_no_file_access; [apply optional_id_no_file_access |]; intros ?).
    apply bind_no_file_access; [apply int_mapping_no_file_access, (Hset K_MODS_DICT) |].
    intros ?.
    apply bind_no_file_access; [apply opaque_mapping_no_file_access, (Hset K_RANK_EMOJI) |].
    intros ?.
    apply bind_no_file_access;
      [apply int_mapping_no_file_access, (Hset K_USER_NEWBEST_LIMIT) |].
    intros ?.
    apply bind_no_file_access;
      [apply int_mapping_no_file_access, (Hset K_ROLE_THRESHOLDS) |].
    intros ?. done.
  - intros fs. apply config_module_congr_sources; [done | done |].
    intros k. destruct (proj1 (unset_false w _) (Hset k)) as (s & Hs & Hne).
    rewrite (read_sources_env json_loads default_mappings_path w _ _ s Hs Hne).
    by apply read_sources_env.
Qed.

End Coverage.

(** ** Looking roles up in both directions *)

Lemma last_name_of_elem id roles name :
  last_name_of id roles = Some name -> (name, id) ∈ roles.
Proof.
  induction roles as [| [n v] roles IH]; [done |]. cbn [last_name_of].
  destruct (last_name_of id roles) as [n' |].
  - intros [= ->]. right. by apply IH.
  - destruct (decide (v = id)) as [-> |]; [| done]. intros [= ->]. by left.
Qed.

Lemma elem_last_name_of id roles name :
  (name, id) ∈ roles -> is_Some (last_name_of id roles).
Proof.
  induction roles as [| [n v] roles IH]; intros Hin; [by apply elem_of_nil in Hin |].
  cbn [last_name_of].
  destruct (last_name_of id roles) as [n' |] eqn:Hl; [by eexists |].
  apply elem_of_cons in Hin as [[= -> ->] | Hin].
  - rewrite decide_True by done. by eexists.
  - apply IH in Hin. by destruct Hin.
Qed.

Lemma dict_get_elem {V} name (d : list (string * V)) v :
  dict_get name d = Some v -> (name, v) ∈ d.
Proof.
  induction d as [| [n v'] d IH]; [done |]. cbn [dict_get].
  destruct (decide (name = n)) as [-> |].
  - intros [= ->]. by left.
  - intros H. right. by apply IH.
Qed.

Lemma elem_dict_get {V} name (d : list (string * V)) v :
  NoDup (dict_keys d) -> (name, v) ∈ d -> dict_get name d = Some v.
Proof.
  unfold dict_keys.
  induction d as [| [n v'] d IH]; intros Hnd Hin; [by apply elem_of_nil in Hin |].
  rewrite fmap_cons in Hnd. apply NoDup_cons in Hnd as [Hn Hnd].
  cbn [dict_get]. apply elem_of_cons in Hin as [[= -> ->] | Hin].
  - by rewrite decide_True.
  - rewrite decide_False; [by apply IH |].
    intros ->. apply Hn. apply list_elem_of_fmap. by exists (n, v).
Qed.

Lemma last_name_of_unique id roles name :
  NoDup (snd <$> roles) -> (name, id) ∈ roles -> last_name_of id roles = Some name.
Proof.
  induction roles as [| [n v] roles IH]; intros Hnd Hin; [by apply elem_of_nil in Hin |].
  rewrite fmap_cons in Hnd. apply NoDup_cons in Hnd as [Hv Hnd].
  cbn [last_name_of]. apply elem_of_cons in Hin as [[= <- <-] | Hin].
  - destruct (last_name_of id roles) as [n' |] eqn:Hl.
    + apply last_name_of_elem in Hl. exfalso. apply Hv.
      apply list_elem_of_fmap. by exists (n', id).
    + by rewrite decide_True.
  - by rewrite (IH Hnd Hin).
Qed.

(** ** Coercion of an object, entry by entry *)

Lemma dict_keys_app {V} (d1 d2 : list (string * V)) :
  dict_keys (d1 ++ d2) = dict_keys d1 ++ dict_keys d2.
Proof. unfold dict_keys. apply fmap_app. Qed.

Lemma int_dict_from_inr items : forall acc m,
  NoDup (dict_keys acc ++ dict_keys items) ->
  int_dict_from acc items = inr m <->
  exists m', m = acc ++ m' /\
    Forall2 (fun kv kz => kz.1 = kv.1 /\ py_int kv.2 = inr kz.2) items m'.
Proof.
  induction items as [| [k v] items IH]; intros acc m Hnd; cbn [int_dict_from].
  - split.
    + intros [= <-]. exists []. by rewrite app_nil_r.
    + intros (m' & -> & Hm'). apply Forall2_nil_inv_l in Hm' as ->.
      by rewrite app_nil_r.
  - assert (k ∉ dict_keys acc) as Hk.
    { apply NoDup_app in Hnd as (_ & Hdis & _). intros Hin.
      apply (Hdis _ Hin). unfold dict_keys. rewrite fmap_cons. by left. }
    destruct (py_int v) as [e | z] eqn:Hv.
    + split; [done |]. intros (m' & _ & Hm').
      apply Forall2_cons_inv_l in Hm' as (kz & ? & [_ Hz] & _ & _). simpl in Hz. congruence.
    + rewrite (dict_set_fresh k z acc Hk). rewrite IH.
      * split.
        -- intros (m' & -> & Hm'). exists ((k, z) :: m').
           split; [by rewrite <- app_assoc |]. by constructor.
        -- intros (m'' & -> & Hm'').
           apply Forall2_cons_inv_l in Hm'' as ([k' z'] & m' & [Hk' Hz'] & Hm' & ->).
           simpl in Hk', Hz'. exists m'. split; [| done].
           rewrite <- app_assoc. simpl. congruence.
      * rewrite dict_keys_app, <- app_assoc. exact Hnd.
Qed.

Lemma int_dict_from_inl items : forall acc e,
  int_dict_from acc items = inl e <->
  exists before k v after,
    items = before ++ (k, v) :: after /\
    Forall (fun kv => exists z, py_int kv.2 = inr z) before /\
    py_int v = inl e.
Proof.
  induction items as [| [k0 v0] items IH]; intros acc e; cbn [int_dict_from].
  - split; [done |]. intros (before & k & v & after & Habs & _).
    by destruct before.
  - destruct (py_int v0) as [e0 | z] eqn:Hv0.
    + split.
      * intros [= ->]. by exists [], k0, v0, items.
      * intros (before & k & v & after & Heq & Hbefore & Hv).
        destruct before as [| kv before].
        -- injection Heq as -> -> ->. congruence.
        -- injection Heq as <- _. apply Forall_cons in Hbefore as [[z Hz] _].
           simpl in Hz. congruence.
    + rewrite IH. split.
      * intros (before & k & v & after & -> & Hbefore & Hv).
        exists ((k0, v0) :: before), k, v, after. split; [done |].
        split; [| done]. constructor; [by exists z | done].
      * intros (before & k & v & after & Heq & Hbefore & Hv).
        destruct before as [| kv before].
        -- injection Heq as -> -> ->. congruence.
        -- injection Heq as <- ->. apply Forall_cons in Hbefore as [_ Hbefore].
           by exists before, k, v, after.
Qed.

(** X14. The integer coercion of an object works entry by entry, in
    the order of the object.  It succeeds exactly when [int] accepts every
    value, and the result then has the same keys in the same order, each
    with the integer read from its value.  It fails exactly when some value
    is rejected, and the exception is the one that [int] raised on the
    first such value. *)
Theorem int_dict_entrywise (items : list (string * pyval)) :
  (forall m, NoDup (dict_keys items) ->
     int_dict items = inr m <->
     Forall2 (fun kv kz => kz.1 = kv.1 /\ py_int kv.2 = inr kz.2) items m) /\
  (forall e,
     int_dict items = inl e <->
     exists before k v after,
       items = before ++ (k, v) :: after /\
       Forall (fun kv => exists z, py_int kv.2 = inr z) before /\
       py_int v = inl e).
Proof.
  split.
  - intros m Hnd. unfold int_dict. rewrite int_dict_from_inr by done.
    split; [by intros (m' & -> & ?) | intros ?; by exists m].
  - intros e. apply int_dict_from_inl.
Qed.

Section RoleLookups.
Variable json_loads : string -> exn + pyval.
Variable default_mappings_path : string.

(** X15. In every configuration produced by the import, REV_ROLES only
    answers with pairs of ROLES: an id found there leads to a name whose
    role id is that id, and every id of ROLES is found there.  When no two
    roles share an id the two lookups are inverse to each other. *)
Theorem reverse_role_lookup w t cfg :
  config_module json_loads default_mappings_path w = (t, inr cfg) ->
  (forall id name,
     dict_get id (REV_ROLES cfg) = Some name -> dict_get name (ROLES cfg) = Some id) /\
  (forall name id,
     dict_get name (ROLES cfg) = Some id -> is_Some (dict_get id (REV_ROLES cfg))) /\
  (NoDup (snd <$> ROLES cfg) ->
   forall name id,
     dict_get name (ROLES cfg) = Some id <-> dict_get id (REV_ROLES cfg) = Some name).
Proof.
  intros H.
  apply config_module_inv in H
    as (? & ? & ? & roles & ? & ? & ? & ? & ? & ? & ? & _ & Hroles & _ & _ & _ & _ & _ & _ & _ & ->).
  apply bind_ROLES_NoDup in Hroles. simpl.
  split; [| split].
  - intros id name. rewrite rev_roles_last. intros Hl%last_name_of_elem.
    by apply elem_dict_get.
  - intros name id Hg%dict_get_elem. rewrite rev_roles_last.
    by eapply elem_last_name_of.
  - intros Hids name id. rewrite rev_roles_last. split.
    + intros Hg%dict_get_elem. by apply last_name_of_unique.
    + intros Hl%last_name_of_elem. by apply elem_dict_get.
Qed.

End RoleLookups.

(** ** The further properties on sample worlds *)

Lemma unread_variables_are_ignored_witness :
  config_module RefJSON.loads sample_path (world_of env_with_home fs_sample)
    = config_module RefJSON.loads sample_path (world_of env_minimal fs_sample).
Proof.
  apply unread_variables_are_ignored; [reflexivity |].
  intros n Hn. unfold read_vars, core_vars, db_vars in Hn. cbn [app] in Hn.
  repeat (apply elem_of_cons in Hn as [-> | Hn]; [vm_compute; reflexivity |]).
  by apply elem_of_nil in Hn.
Defined.

Lemma only_the_mappings_path_matters_witness :
  config_module RefJSON.loads sample_path (world_of env_minimal fs_two_files)
    = config_module RefJSON.loads sample_path (world_of env_minimal fs_sample).
Proof.
  apply only_the_mappings_path_matters; [reflexivity | vm_compute; reflexivity].
Defined.

Lemma unrecognised_file_keys_are_ignored_witness :
  config_module RefJSON.loads sample_path (world_of env_minimal fs_extra_keys)
    = config_module RefJSON.loads sample_path (world_of env_minimal fs_sample).
Proof.
  eapply (unrecognised_file_keys_are_ignored RefJSON.loads sample_path
            (world_of env_minimal fs_sample) (world_of env_minimal fs_extra_keys)
            mappings_text extra_keys_text);
    [reflexivity | vm_compute; reflexivity | vm_compute; reflexivity
    | vm_compute; reflexivity | vm_compute; reflexivity
    | intros k; destruct k; vm_compute; reflexivity].
Defined.

Lemma postgres_parts_unused_with_database_url_witness :
  config_module RefJSON.loads sample_path
      (with_var "POSTGRES_USER" "someone" (world_of env_database fs_sample))
    = config_module RefJSON.loads sample_path (world_of env_database fs_sample).
Proof.
  apply (postgres_parts_unused_with_database_url RefJSON.loads sample_path
           (world_of env_database fs_sample) _ "postgres://example/db").
  - reflexivity.
  - intros n Hn. unfold os_getenv, with_var. simpl. apply lookup_insert_ne.
    intros <-. apply Hn. by left.
  - vm_compute; reflexivity.
  - discriminate.
Defined.

Lemma passthrough_settings_unchecked_witness :
  config_module RefJSON.loads sample_path
      (with_var "API_CLIENT_ID" "" (world_of env_minimal fs_sample))
    = with_passthrough (with_var "API_CLIENT_ID" "" (world_of env_minimal fs_sample))
        <$> config_module RefJSON.loads sample_path (world_of env_minimal fs_sample).
Proof.
  apply passthrough_settings_unchecked.
  - reflexivity.
  - intros n Hn. unfold os_getenv, with_var. simpl. apply lookup_insert_ne.
    intros <-. apply Hn. by left.
Defined.

Lemma non_object_mappings_file_is_fatal_witness :
  config_module RefJSON.loads sample_path (world_of env_minimal fs_array)
    = ([PathExists sample_path; OpenRead sample_path],
       inl (Exn AttributeError "'list' object has no attribute 'get'")).
Proof.
  refine (proj2 (non_object_mappings_file_is_fatal RefJSON.loads sample_path
                   (world_of env_minimal fs_array) "[1, 2]" (PList [PInt 1; PInt 2]) _ _ _)
            ("token", 1234, -5678) _ _);
    first [by left | vm_compute; reflexivity].
Defined.

Lemma import_error_classes_witness :
  exn_cls (Exn AttributeError "'list' object has no attribute 'get'") = ValueError \/
  exists text data,
    files (world_of env_minimal fs_array)
      !! mappings_path sample_path (world_of env_minimal fs_array) = Some (FileText text) /\
    RefJSON.loads text = inr data /\ is_object data = false /\
    Exn AttributeError "'list' object has no attribute 'get'" = no_attribute data "get".
Proof.
  apply (import_error_classes RefJSON.loads sample_path (world_of env_minimal fs_array)
           [PathExists sample_path; OpenRead sample_path]).
  vm_compute; reflexivity.
Defined.

Lemma unreadable_mappings_file_is_soft_witness :
  _load_from_mappings_file RefJSON.loads sample_path
      (world_of env_minimal fs_directory) "ROLES"
    = ([PathExists sample_path; OpenRead sample_path;
        LogInfo "Failed to read mappings file '/app/mappings.json': [Errno 21] Is a directory: '/app/mappings.json'"],
       inr PNone) /\
  (config_module RefJSON.loads sample_path (world_of env_minimal fs_directory)).2
    = (config_module RefJSON.loads sample_path
         (without_files (world_of env_minimal fs_directory))).2.
Proof.
  assert (files (world_of env_minimal fs_directory)
            !! mappings_path sample_path (world_of env_minimal fs_directory)
          = Some (Unreadable
                    (Exn OSError "[Errno 21] Is a directory: '/app/mappings.json'")))
    as Hfile by (vm_compute; reflexivity).
  destruct (unreadable_mappings_file_is_soft RefJSON.loads sample_path _ _ Hfile)
    as [Hload Hsame].
  split; [exact (Hload "ROLES") | exact Hsame].
Defined.

Lemma mappings_file_override_by_presence_witness :
  mappings_path sample_path (world_of env_no_mappings_file fs_sample) = "" /\
  (config_module RefJSON.loads sample_path (world_of env_no_mappings_file fs_sample)).2
    = (config_module RefJSON.loads sample_path
         (without_files (world_of env_no_mappings_file fs_sample))).2.
Proof.
  assert (os_getenv (world_of env_no_mappings_file fs_sample) "MAPPINGS_FILE" = Some "")
    as Hset by (vm_compute; reflexivity).
  destruct (mappings_file_override_by_presence RefJSON.loads sample_path _ _ Hset)
    as [Hpath Hnone].
  split; [exact Hpath |]. apply Hnone. vm_compute; reflexivity.
Defined.

Lemma non_object_value_is_fatal_witness :
  bind_mapping RefJSON.loads sample_path K_ROLES (world_of env_roles_array [])
    = ([], inl (Exn ValueError
                  "Invalid ROLES JSON provided (env or file): 'list' object has no attribute 'items'")) /\
  forall t' cfg,
    config_module RefJSON.loads sample_path (world_of env_roles_array []) <> (t', inr cfg).
Proof.
  refine (non_object_value_is_fatal RefJSON.loads sample_path K_ROLES
            (world_of env_roles_array []) [] (PStr "[1, 2]") (PList [PInt 1; PInt 2])
            _ _ _ _ _);
    vm_compute; reflexivity.
Defined.

Lemma mappings_file_probed_once_per_missing_setting_witness :
  match sample_run with
  | (t, inr cfg) =>
      probes t = replicate 5 sample_path /\ opens t = replicate 5 sample_path
  | (_, inl _) => False
  end.
Proof.
  assert (config_module RefJSON.loads sample_path (world_of env_minimal fs_sample)
            = sample_run) as Hrun by (vm_compute; reflexivity).
  unfold sample_run in *.
  exact (mappings_file_probed_once_per_missing_setting RefJSON.loads sample_path _ _ _ Hrun).
Defined.

Lemma optional_id_is_none_iff_logged_witness :
  match sample_run with
  | (t, inr cfg) =>
      BOT_SELF_ID cfg = None <->
      "BOT_SELF_ID not configured; BOT_SELF_ID set to None" ∈ logs t
  | (_, inl _) => False
  end.
Proof.
  assert (config_module RefJSON.loads sample_path (world_of env_minimal fs_sample)
            = sample_run) as Hrun by (vm_compute; reflexivity).
  unfold sample_run in *.
  exact (optional_id_is_none_iff_logged RefJSON.loads sample_path K_BOT_SELF_ID _ _ _ Hrun).
Defined.

Lemma environment_only_import_witness :
  no_file_access
    (config_module RefJSON.loads sample_path (world_of env_all_mappings fs_sample)).1 /\
  forall fs,
    config_module RefJSON.loads sample_path
      (World (environ (world_of env_all_mappings fs_sample)) fs)
    = config_module RefJSON.loads sample_path (world_of env_all_mappings fs_sample).
Proof.
  apply environment_only_import. vm_compute; reflexivity.
Defined.

Lemma int_dict_entrywise_witness :
  Forall2 (fun kv kz => kz.1 = kv.1 /\ py_int kv.2 = inr kz.2)
    [("A", PInt 1); ("B", PStr "2")] [("A", 1); ("B", 2)].
Proof.
  apply (proj1 (int_dict_entrywise [("A", PInt 1); ("B", PStr "2")])).
  - apply (bool_decide_unpack _). vm_compute. exact I.
  - vm_compute; reflexivity.
Defined.

Lemma reverse_role_lookup_witness :
  match roles_run with
  | (t, inr cfg) =>
      forall name id,
        dict_get name (ROLES cfg) = Some id <-> dict_get id (REV_ROLES cfg) = Some name
  | (_, inl _) => False
  end.
Proof.
  assert (config_module RefJSON.loads sample_path (world_of env_minimal fs_roles)
            = roles_run) as Hrun by (vm_compute; reflexivity).
  unfold roles_run in *.
  refine (proj2 (proj2 (reverse_role_lookup RefJSON.loads sample_path _ _ _ Hrun)) _).
  apply (bool_decide_unpack _). vm_compute. exact I.
Defined.
